(** * The Accelerator base class of pytorch_lightning, over a small object store

    Source: [src/pytorch_lightning/accelerators/accelerator.py].

    The class is a delegation layer.  It keeps one reference, the attribute
    [training_type_plugin], and every method reads that attribute and then
    gets an attribute of, sets an attribute of, or calls a method of the
    object it refers to.  The development therefore has two layers:

    - [Py]: the part of the Python object model the source relies on
      (object identities, instance dictionaries, class namespaces with
      descriptors, methods and plain values, attribute lookup and
      assignment with the hooks a class may override, calls, exceptions);
    - [Accelerator]: the class itself, one definition per source method.

    The collaborator classes (TrainingTypePlugin, PrecisionPlugin, Trainer,
    the model) are not part of the source file; their class namespaces are a
    Section variable [classes], so every theorem holds for any
    implementation of them. *)

From stdpp Require Import gmap strings list fin_maps.

(** ** Python objects, store and effects *)

Module Py.

(** Object identities. *)
Definition loc := positive.
Bind Scope positive_scope with loc.

(** The values the Accelerator handles.  Plugins, trainers, models and
    [torch.device]s are objects, seen through their identity; a device may
    also be a [str].  [VBound l m] is the bound method that [getattr]
    returns when [m] is a function of the class of [l]. *)
Inductive value : Type :=
| VNone
| VRef (l : loc)
| VStr (s : string)
| VInt (z : Z)
| VBound (self : loc) (meth : string).

#[global] Instance value_eq_dec : EqDecision value.
Proof. solve_decision. Defined.

(** Exceptions.  [AttributeError tn a]: an object of type [tn] has no
    attribute [a] (or [a] cannot be set).  [RecursionError]: the nesting
    of calls went past the interpreter's limit.  [UserError c v]: any
    other exception class [c] a collaborator raises, with a payload.  [SystemError] has no
    counterpart in a running Python program: it is what a dangling identity
    gives, and identities never dangle there. *)
Inductive exn : Type :=
| AttributeError (type_name attr : string)
| NotImplementedError
| TypeError (msg : string)
| RecursionError
| UserError (cls : string) (payload : value)
| SystemError (msg : string).

#[global] Instance exn_eq_dec : EqDecision exn.
Proof. solve_decision. Defined.

(** An instance: its class, by name, and its [__dict__]. *)
Record object : Type := Obj {
  obj_class : string;
  obj_dict : gmap string value
}.

Abbreviation heap := (gmap loc object).

(** The result of running a piece of code: it returns or raises, and in
    both cases leaves a store behind. *)
Inductive outcome (A : Type) : Type :=
| Normal (a : A) (h : heap)
| Raised (e : exn) (h : heap).
Arguments Normal {A} a h.
Arguments Raised {A} e h.

Definition is_raised {A} (r : outcome A) : bool :=
  match r with
  | Normal _ _ => false
  | Raised _ _ => true
  end.

Definition heap_of {A} (r : outcome A) : heap :=
  match r with
  | Normal _ h => h
  | Raised _ h => h
  end.

(** Code is a function of the store. *)
Definition M (A : Type) : Type := heap → outcome A.

Definition ret {A} (a : A) : M A := λ h, Normal a h.

Definition raise {A} (e : exn) : M A := λ h, Raised e h.

Definition bind {A B} (m : M A) (k : A → M B) : M B :=
  λ h, match m h with
       | Normal a h' => k a h'
       | Raised e h' => Raised e h'
       end.

Declare Scope py_scope.
Delimit Scope py_scope with py.
Notation "x <- m ;; k" := (bind m (λ x, k))
  (at level 100, m at next level, right associativity) : py_scope.
Notation "m ;; k" := (bind m (λ _, k))
  (at level 100, right associativity) : py_scope.
Open Scope py_scope.

(** An expression statement: the value is dropped, the function goes on and
    returns [None]; an exception passes through. *)
Definition discard {A} (r : outcome A) : outcome value :=
  match r with
  | Normal _ h => Normal VNone h
  | Raised e h => Raised e h
  end.

(** A member of a class namespace (the namespaces are given with the base
    classes' members already merged in, in method resolution order).
    - A [Property] is a data descriptor: it takes precedence over the
      instance dictionary, for reading and for writing; without a setter,
      assignment fails.
    - A [Method] is a function: a non-data descriptor that binds to the
      instance.
    - A [NonData] is any other non-data descriptor: when the instance
      dictionary has no entry, reading runs its [__get__].
    - A [ClassAttr] is a plain value kept on the class.
    The hooks of the attribute protocol are members under their Python
    names: [__getattribute__] and [__getattr__] take the attribute name
    (as a [VStr]), [__setattr__] the name and the value, [__call__] the
    arguments.  A namespace has the entry [__slots__] when the instances
    of the class have no [__dict__]. *)
Inductive member : Type :=
| Property (fget : loc → M value) (fset : option (loc → value → M unit))
| Method (body : loc → list value → M value)
| NonData (fget : loc → M value)
| ClassAttr (x : value).

Abbreviation namespace := (gmap string member).

Definition is_data_descriptor (ns : namespace) (name : string) : bool :=
  match ns !! name with
  | Some (Property _ _) => true
  | _ => false
  end.

Definition defines (ns : namespace) (name : string) : bool :=
  match ns !! name with
  | Some _ => true
  | None => false
  end.

Definition has_dict (ns : namespace) : bool :=
  negb (defines ns "__slots__").

(** The class leaves the attribute protocol to [object]: it overrides none
    of [__getattribute__], [__getattr__] and [__setattr__], and its
    instances have a [__dict__]. *)
Definition default_protocol (ns : namespace) : bool :=
  negb (defines ns "__getattribute__") && negb (defines ns "__getattr__")
  && negb (defines ns "__setattr__") && has_dict ns.

Definition is_attribute_error (e : exn) : bool :=
  match e with
  | AttributeError _ _ => true
  | _ => false
  end.

(** The result of a call used where nothing is expected back. *)
Definition void {A} (r : outcome A) : outcome unit :=
  match r with
  | Normal _ h => Normal () h
  | Raised e h => Raised e h
  end.

(** Reading and writing the [__dict__] of an object directly. *)
Definition slot (h : heap) (l : loc) (name : string) : option value :=
  o ← h !! l; obj_dict o !! name.

Definition set_slot (l : loc) (o : object) (name : string) (v : value)
  (h : heap) : heap :=
  <[l := Obj (obj_class o) (<[name := v]> (obj_dict o))]> h.

(** Attribute access on an instance whose class leaves the attribute
    protocol to [object] and has no member of that name: the instance
    dictionary alone decides (see [getattr] and [setattr] below, which
    agree with these in that case). *)
Definition load (l : loc) (name : string) : M value :=
  λ h, match h !! l with
       | None => Raised (SystemError "dangling reference") h
       | Some o =>
           match obj_dict o !! name with
           | Some x => Normal x h
           | None => Raised (AttributeError (obj_class o) name) h
           end
       end.

Definition store (l : loc) (name : string) (x : value) : M unit :=
  λ h, match h !! l with
       | None => Raised (SystemError "dangling reference") h
       | Some o => Normal () (set_slot l o name x h)
       end.

(** [object.__new__]: a fresh identity with an empty dictionary. *)
Definition alloc (cls : string) : M loc :=
  λ h, let l := fresh (dom h) in Normal l (<[l := Obj cls ∅]> h).

Definition builtin_type_name (v : value) : string :=
  match v with
  | VNone => "NoneType"
  | VStr _ => "str"
  | VInt _ => "int"
  | VBound _ _ => "method"
  | VRef _ => "object"
  end.

Section Protocol.

(** The class table: the namespace of each class, by class name. *)
Variable classes : string → namespace.

(** Calling [f] on [args]: a bound method runs the function of its class;
    an instance is callable through the function [__call__] of its class;
    nothing else is. *)
Definition call (f : value) (args : list value) : M value :=
  match f with
  | VBound l m => λ h,
      match h !! l with
      | None => Raised (SystemError "dangling reference") h
      | Some o =>
          match classes (obj_class o) !! m with
          | Some (Method body) => body l args h
          | _ => Raised (TypeError "not callable") h
          end
      end
  | VRef l => λ h,
      match h !! l with
      | None => Raised (SystemError "dangling reference") h
      | Some o =>
          match classes (obj_class o) !! "__call__" with
          | Some (Method body) => body l args h
          | _ => Raised (TypeError "not callable") h
          end
      end
  | _ => raise (TypeError "not callable")
  end.

(** Running a hook found on the class of [l]: a function is bound to [l];
    a descriptor is read first and its value called; a plain value is
    called as it is. *)
Definition special (l : loc) (hook : member) (args : list value) : M value :=
  match hook with
  | Method body => body l args
  | Property fget _ => f <- fget l ;; call f args
  | NonData fget => f <- fget l ;; call f args
  | ClassAttr f => call f args
  end.

(** The entry of the instance dictionary, for an instance that has one. *)
Definition instance_entry (o : object) (name : string) : option value :=
  if has_dict (classes (obj_class o)) then obj_dict o !! name else None.

(** [object.__getattribute__]: a data descriptor of the class, then the
    instance dictionary, then a non-data descriptor or plain value of the
    class, else AttributeError. *)
Definition default_getattribute (l : loc) (o : object) (name : string)
  : M value :=
  λ h, match classes (obj_class o) !! name with
       | Some (Property fget _) => fget l h
       | cm =>
           match instance_entry o name with
           | Some x => Normal x h
           | None =>
               match cm with
               | Some (Method _) => Normal (VBound l name) h
               | Some (NonData fget) => fget l h
               | Some (ClassAttr x) => Normal x h
               | _ => Raised (AttributeError (obj_class o) name) h
               end
           end
       end.

(** [getattr(v, name)]: the [__getattribute__] of the class of [v]
    ([object]'s unless the class overrides it), and, when that raises
    AttributeError and the class has a [__getattr__], the fallback.
    None, strings and ints have none of the attributes asked for here; nor
    has a bound method, whose reads go to its function. *)
Definition getattr (v : value) (name : string) : M value :=
  match v with
  | VRef l => λ h,
      match h !! l with
      | None => Raised (SystemError "dangling reference") h
      | Some o =>
          let first :=
            match classes (obj_class o) !! "__getattribute__" with
            | Some hook => special l hook [VStr name] h
            | None => default_getattribute l o name h
            end in
          match first, classes (obj_class o) !! "__getattr__" with
          | Raised e h', Some hook =>
              if is_attribute_error e then special l hook [VStr name] h'
              else first
          | _, _ => first
          end
      end
  | VBound _ _ => raise (AttributeError "function" name)
  | _ => raise (AttributeError (builtin_type_name v) name)
  end.

(** [object.__setattr__]: the setter of a data descriptor of the class,
    else the instance dictionary, when the instance has one. *)
Definition default_setattr (l : loc) (o : object) (name : string) (x : value)
  : M unit :=
  λ h, match classes (obj_class o) !! name with
       | Some (Property _ (Some fset)) => fset l x h
       | Some (Property _ None) =>
           Raised (AttributeError (obj_class o) name) h
       | _ =>
           if has_dict (classes (obj_class o))
           then Normal () (set_slot l o name x h)
           else Raised (AttributeError (obj_class o) name) h
       end.

(** [setattr(v, name, x)]: the [__setattr__] of the class of [v],
    [object]'s unless the class overrides it. *)
Definition setattr (v : value) (name : string) (x : value) : M unit :=
  match v with
  | VRef l => λ h,
      match h !! l with
      | None => Raised (SystemError "dangling reference") h
      | Some o =>
          match classes (obj_class o) !! "__setattr__" with
          | Some hook => void (special l hook [VStr name; x] h)
          | None => default_setattr l o name x h
          end
      end
  | _ => raise (AttributeError (builtin_type_name v) name)
  end.

(** The method call [v.name(args)]. *)
Definition call_method (v : value) (name : string) (args : list value)
  : M value :=
  f <- getattr v name ;; call f args.

(** The function that [v.name(...)] runs in store [h], when the class of
    [v] reads attributes as [object] does and [name] is a function of the
    class that no property and no entry of the instance dictionary
    shadows. *)
Definition method_of (h : heap) (v : value) (name : string)
  : option (list value → M value) :=
  match v with
  | VRef l =>
      match h !! l with
      | Some o =>
          if defines (classes (obj_class o)) "__getattribute__" then None
          else
            match classes (obj_class o) !! name, obj_dict o !! name with
            | Some (Method body), None => Some (body l)
            | _, _ => None
            end
      | None => None
      end
  | _ => None
  end.

End Protocol.

(** *** Class statements and instantiation *)

(** What a [class] statement fixes besides the namespace: the metaclass
    ([type] unless the class derives from [abc.ABC] or names [ABCMeta]) and
    the functions decorated with [@abstractmethod]. *)
Inductive metaclass : Type := type_ | ABCMeta.

Record class_stmt : Type := Class {
  cls_name : string;
  cls_metaclass : metaclass;
  cls_abstract_marked : list string
}.

(** [__abstractmethods__]: collected by [ABCMeta.__new__] only; under
    [type] the decorator leaves a flag on the function that nothing reads. *)
Definition abstractmethods (c : class_stmt) : list string :=
  match cls_metaclass c with
  | ABCMeta => cls_abstract_marked c
  | type_ => []
  end.

(** [object.__new__(cls)]: refuses a class whose [__abstractmethods__] is
    not empty. *)
Definition new (c : class_stmt) : M loc :=
  match abstractmethods c with
  | [] => alloc (cls_name c)
  | _ :: _ => raise (TypeError "Can't instantiate abstract class")
  end.

End Py.

(** ** The class *)

Module Accelerator.
Import Py.

(** [class Accelerator:] has no base class and no metaclass keyword, and
    decorates one function, [auto_device_count], with [@abstractmethod]. *)
Definition cls : class_stmt :=
  {| cls_name := "Accelerator";
     cls_metaclass := type_;
     cls_abstract_marked := ["auto_device_count"] |}.

(** The instance that [Accelerator(...)] makes in store [h], and what it
    holds once [self.training_type_plugin] has been assigned. *)
Definition new_self (h : heap) : loc := fresh (dom h).

Definition self_obj (training_type_plugin : value) : object :=
  Obj "Accelerator" (<["training_type_plugin" := training_type_plugin]> ∅).

Section Methods.

Variable classes : string → namespace.

(** The namespace of the class has the properties [model],
    [lightning_module] and [root_device] and the functions below, and no
    member called [training_type_plugin]: [self.training_type_plugin] is
    the entry of the instance dictionary, read with [load] and written with
    [store].  What the entry refers to is a collaborator; its attributes
    and methods go through [getattr], [setattr] and [call_method]. *)
Definition __init__ (self : loc) (precision_plugin training_type_plugin : value)
  : M value :=
  store self "training_type_plugin" training_type_plugin ;;
  (if bool_decide (precision_plugin ≠ VNone) then
     s <- load self "training_type_plugin" ;;
     setattr classes s "_precision_plugin" precision_plugin
   else ret ()) ;;
  ret VNone.

(** The call [Accelerator(precision_plugin, training_type_plugin)]:
    [type.__call__] makes the instance, runs [__init__] on it and returns
    it. *)
Definition construct (precision_plugin training_type_plugin : value)
  : M value :=
  self <- new cls ;;
  __init__ self precision_plugin training_type_plugin ;;
  ret (VRef self).

Definition setup_environment (self : loc) : M value :=
  s <- load self "training_type_plugin" ;;
  call_method classes s "setup_environment" [] ;;
  ret VNone.

Definition setup (self : loc) (trainer : value) : M value :=
  s <- load self "training_type_plugin" ;;
  call_method classes s "setup" [trainer] ;;
  ret VNone.

(** The getter of the property [model]. *)
Definition model (self : loc) : M value :=
  s <- load self "training_type_plugin" ;;
  getattr classes s "model".

(** The setter of the property [model] ([@model.setter]). *)
Definition model_setter (self : loc) (new_model : value) : M value :=
  s <- load self "training_type_plugin" ;;
  setattr classes s "model" new_model ;;
  ret VNone.

Definition lightning_module (self : loc) : M value :=
  s <- load self "training_type_plugin" ;;
  getattr classes s "lightning_module".

Definition root_device (self : loc) : M value :=
  s <- load self "training_type_plugin" ;;
  getattr classes s "root_device".

Definition teardown (self : loc) : M value :=
  s <- load self "training_type_plugin" ;;
  call_method classes s "teardown" [] ;;
  ret VNone.

Definition get_device_stats (self : loc) (device : value) : M value :=
  raise NotImplementedError.

(** A static method whose body is its docstring: it takes no instance and
    falls off the end. *)
Definition auto_device_count : M value :=
  ret VNone.

(** *** The operations of an instance, as a caller sees them *)

Inductive op : Type :=
| SetupEnvironment
| Setup (trainer : value)
| GetModel
| SetModel (new_model : value)
| GetLightningModule
| GetRootDevice
| Teardown
| GetDeviceStats (device : value).

Definition run_op (self : loc) (o : op) : M value :=
  match o with
  | SetupEnvironment => setup_environment self
  | Setup trainer => setup self trainer
  | GetModel => model self
  | SetModel new_model => model_setter self new_model
  | GetLightningModule => lightning_module self
  | GetRootDevice => root_device self
  | Teardown => teardown self
  | GetDeviceStats device => get_device_stats self device
  end.

(** A caller running operations one after the other, going on whether an
    operation returned or raised; the store it ends with. *)
Fixpoint run_ops (self : loc) (os : list op) (h : heap) : heap :=
  match os with
  | [] => h
  | o :: os' => run_ops self os' (heap_of (run_op self o h))
  end.

(** The strategy an instance holds. *)
Definition strategy_of (h : heap) (self : loc) : option value :=
  slot h self "training_type_plugin".

(** A piece of collaborator code leaves the reference of [self] alone. *)
Definition keeps {A} (self : loc) (m : M A) : Prop :=
  ∀ h, strategy_of (heap_of (m h)) self = strategy_of h self.

Definition member_keeps (self : loc) (mb : member) : Prop :=
  match mb with
  | Method body => ∀ l args, keeps self (body l args)
  | Property fget fset =>
      (∀ l, keeps self (fget l)) ∧
      match fset with
      | Some f => ∀ l x, keeps self (f l x)
      | None => True
      end
  | NonData fget => ∀ l, keeps self (fget l)
  | ClassAttr _ => True
  end.

(** No code of any collaborator class assigns the attribute
    [training_type_plugin] of [self] (the attribute is public: code outside
    the class can). *)
Definition collaborators_keep (self : loc) : Prop :=
  ∀ c name mb, classes c !! name = Some mb → member_keeps self mb.

(** The object [v] refers to keeps [name] in its dictionary: its class
    leaves the attribute protocol to [object] and has no property of that
    name. *)
Definition plain_slot (h : heap) (v : value) (name : string) : Prop :=
  match v with
  | VRef l =>
      match h !! l with
      | Some o =>
          default_protocol (classes (obj_class o)) = true ∧
          is_data_descriptor (classes (obj_class o)) name = false
      | None => False
      end
  | _ => False
  end.

End Methods.

End Accelerator.

(** ** The class as code outside it sees it *)

Module Client.
Import Py.

Definition arity_error {A} : M A :=
  raise (TypeError "wrong number of positional arguments").

Section Members.

(** The class table through which the members reach the strategy. *)
Variable classes : string → namespace.

(** The namespace the [class] statement builds: [model] is a property with
    a getter and a setter, [lightning_module] and [root_device] are
    properties with a getter only, the other members are functions of
    [self] with the parameters of their [def].  [auto_device_count] is a
    static method; reached through an instance it is the function itself,
    which takes no argument.  The class defines no hook of the attribute
    protocol and no [__slots__]. *)
Definition members : namespace :=
  <["__init__" := Method (λ self args,
      match args with
      | [precision_plugin; training_type_plugin] =>
          Accelerator.__init__ classes self precision_plugin training_type_plugin
      | _ => arity_error
      end)]>
  (<["setup_environment" := Method (λ self args,
      match args with
      | [] => Accelerator.setup_environment classes self
      | _ => arity_error
      end)]>
  (<["setup" := Method (λ self args,
      match args with
      | [trainer] => Accelerator.setup classes self trainer
      | _ => arity_error
      end)]>
  (<["model" := Property (Accelerator.model classes)
      (Some (λ self new_model,
               Accelerator.model_setter classes self new_model ;; ret ()))]>
  (<["lightning_module" := Property (Accelerator.lightning_module classes) None]>
  (<["root_device" := Property (Accelerator.root_device classes) None]>
  (<["teardown" := Method (λ self args,
      match args with
      | [] => Accelerator.teardown classes self
      | _ => arity_error
      end)]>
  (<["get_device_stats" := Method (λ self args,
      match args with
      | [device] => Accelerator.get_device_stats self device
      | _ => arity_error
      end)]>
  (<["auto_device_count" := Method (λ _ args,
      match args with
      | [] => Accelerator.auto_device_count
      | _ => arity_error
      end)]> ∅)))))))).

End Members.

(** The members of the class once the nesting of calls has reached the
    interpreter's limit: entering any of them raises RecursionError. *)
Definition overflow : namespace :=
  <["__init__" := Method (λ _ _, raise RecursionError)]>
  (<["setup_environment" := Method (λ _ _, raise RecursionError)]>
  (<["setup" := Method (λ _ _, raise RecursionError)]>
  (<["model" := Property (λ _, raise RecursionError)
                  (Some (λ _ _, raise RecursionError))]>
  (<["lightning_module" := Property (λ _, raise RecursionError) None]>
  (<["root_device" := Property (λ _, raise RecursionError) None]>
  (<["teardown" := Method (λ _ _, raise RecursionError)]>
  (<["get_device_stats" := Method (λ _ _, raise RecursionError)]>
  (<["auto_device_count" := Method (λ _ _, raise RecursionError)]> ∅)))))))).

Section Table.

(** The classes of the collaborators. *)
Variable classes : string → namespace.

(** The class table with the class in it.  A strategy may itself be an
    Accelerator, whose members then reach its own strategy, and so on:
    [depth] bounds that nesting, as the interpreter's recursion limit
    does. *)
Fixpoint table (depth : nat) (c : string) : namespace :=
  if decide (c = cls_name Accelerator.cls) then
    match depth with
    | 0 => overflow
    | S d => members (table d)
    end
  else classes c.

(** The constructor call for a class statement with the same body: the
    class as written, the class with another metaclass, a subclass that
    adds nothing. *)
Definition construct_as (c : class_stmt)
  (precision_plugin training_type_plugin : value) : M value :=
  self <- new c ;;
  Accelerator.__init__ classes self precision_plugin training_type_plugin ;;
  ret (VRef self).

(** A piece of code invoked on [l] writes no object that exists other
    than [l]. *)
Definition local_to {A} (l : loc) (m : M A) : Prop :=
  ∀ h l', l' ≠ l → is_Some (h !! l') → heap_of (m h) !! l' = h !! l'.

Definition member_local (mb : member) : Prop :=
  match mb with
  | Method body => ∀ l args, local_to l (body l args)
  | Property fget fset =>
      (∀ l, local_to l (fget l)) ∧
      match fset with
      | Some f => ∀ l x, local_to l (f l x)
      | None => True
      end
  | NonData fget => ∀ l, local_to l (fget l)
  | ClassAttr _ => True
  end.

(** Every member of every collaborator class writes only the object it is
    invoked on. *)
Definition collaborators_local : Prop :=
  ∀ c name mb, classes c !! name = Some mb → member_local mb.

End Table.

End Client.

(** ** Test doubles *)

Module Fake.
Import Py.

(** A strategy that records what was called on it.  It keeps [model] and
    [_precision_plugin] in its dictionary, has a public property
    [precision_plugin] whose setter refuses to run, and derives
    [lightning_module] from [model]. *)
Definition strategy_ns : namespace :=
  <["setup_environment" :=
      Method (λ l _, store l "env_ready" (VInt 1) ;; ret VNone)]>
  (<["setup" :=
      Method (λ l args,
        match args with
        | [trainer] => store l "trainer" trainer ;; ret VNone
        | _ => raise (TypeError "setup() takes one argument")
        end)]>
  (<["teardown" :=
      Method (λ l _, store l "torn_down" (VInt 1) ;; ret VNone)]>
  (<["precision_plugin" :=
      Property (λ l, load l "_precision_plugin")
               (Some (λ l x, raise (UserError "AssertionError" x)))]>
  (<["lightning_module" := Property (λ l, load l "model") None]>
  (<["root_device" := Property (λ _, ret (VStr "cpu")) None]> ∅))))).

(** A strategy whose life-cycle methods raise. *)
Definition failing_ns : namespace :=
  <["setup_environment" :=
      Method (λ _ _, raise (UserError "RuntimeError" (VStr "no process group")))]>
  (<["setup" :=
      Method (λ l _, store l "half_done" (VInt 1) ;;
                     raise (UserError "RuntimeError" (VStr "out of memory")))]>
  (<["teardown" :=
      Method (λ _ _, raise (UserError "RuntimeError" (VStr "already closed")))]> ∅)).

(** A strategy that exposes [model] as a property over a private
    [_model] entry. *)
Definition wrapping_ns : namespace :=
  <["model" :=
      Property (λ l, load l "_model") (Some (λ l x, store l "_model" x))]> ∅.

Definition classes (c : string) : namespace :=
  if decide (c = "FakeStrategy") then strategy_ns
  else if decide (c = "FailingStrategy") then failing_ns
  else if decide (c = "WrappingStrategy") then wrapping_ns
  else ∅.

(** A store: the strategy (1) holding model A (2) and a precision plugin
    (3); another precision plugin (4), a model B (5), a trainer (6) and a
    failing strategy (7). *)
Definition strategy_obj : object :=
  Obj "FakeStrategy" (<["model" := VRef 2]> (<["_precision_plugin" := VRef 3]> ∅)).

Definition h0 : heap :=
  <[1%positive := strategy_obj]>
  (<[2%positive := Obj "Module" ∅]>
  (<[3%positive := Obj "PrecisionPlugin" ∅]>
  (<[4%positive := Obj "PrecisionPlugin" ∅]>
  (<[5%positive := Obj "Module" ∅]>
  (<[6%positive := Obj "Trainer" ∅]>
  (<[7%positive := Obj "FailingStrategy" ∅]> ∅)))))).

(** The store after [Accelerator(None, strategy)]: the instance is 8. *)
Definition h1 : heap :=
  <[8%positive := Obj "Accelerator" (<["training_type_plugin" := VRef 1]> ∅)]> h0.

(** The same with the failing strategy. *)
Definition h2 : heap :=
  <[8%positive := Obj "Accelerator" (<["training_type_plugin" := VRef 7]> ∅)]> h0.

(** An instance (2) over a wrapping strategy (1) that has no model yet. *)
Definition h3 : heap :=
  <[1%positive := Obj "WrappingStrategy" ∅]>
  (<[2%positive := Obj "Accelerator" (<["training_type_plugin" := VRef 1]> ∅)]>
  (<[5%positive := Obj "Module" ∅]> ∅)).

End Fake.

(** Further doubles: a strategy whose [_precision_plugin] is a property
    without a setter, and one whose setter refuses. *)
Module Doubles.
Import Py.

Definition frozen_ns : namespace :=
  <["_precision_plugin" := Property (λ l, load l "_precision") None]> ∅.

Definition guarded_ns : namespace :=
  <["_precision_plugin" :=
      Property (λ l, load l "_precision")
        (Some (λ l x, store l "_attempted" x ;;
                      raise (UserError "ValueError" x)))]> ∅.

(** A strategy whose class answers every missing attribute with the
    string "dyn" ([__getattr__]), and one whose class refuses every
    assignment ([__setattr__]). *)
Definition dynamic_ns : namespace :=
  <["__getattr__" := Method (λ _ _, ret (VStr "dyn"))]> ∅.

Definition strict_ns : namespace :=
  <["__setattr__" :=
      Method (λ _ args, raise (UserError "RuntimeError" (default VNone (args !! 0%nat))))]> ∅.

Definition classes (c : string) : namespace :=
  if decide (c = "FrozenStrategy") then frozen_ns
  else if decide (c = "GuardedStrategy") then guarded_ns
  else if decide (c = "DynamicStrategy") then dynamic_ns
  else if decide (c = "StrictStrategy") then strict_ns
  else Fake.classes c.

(** A frozen strategy (1), a guarded one (2) and a precision plugin (4). *)
Definition h0 : heap :=
  <[1%positive := Obj "FrozenStrategy" (<["_precision" := VRef 3]> ∅)]>
  (<[2%positive := Obj "GuardedStrategy" ∅]>
  (<[4%positive := Obj "PrecisionPlugin" ∅]> ∅)).

(** An instance (8) over a dynamic strategy (1), beside a strict strategy
    (2) and a precision plugin (4). *)
Definition h_dyn : heap :=
  <[1%positive := Obj "DynamicStrategy" ∅]>
  (<[2%positive := Obj "StrictStrategy" ∅]>
  (<[4%positive := Obj "PrecisionPlugin" ∅]>
  (<[8%positive := Accelerator.self_obj (VRef 1)]> ∅))).

(** An object of class Accelerator on which [__init__] has not run (9),
    and an instance that holds None (8), beside the store of [Fake]. *)
Definition h_bare : heap :=
  <[9%positive := Obj "Accelerator" ∅]>
  (<[8%positive := Accelerator.self_obj VNone]> Fake.h0).

(** Two instances (8, 9) over the fake strategy (1). *)
Definition h_two : heap :=
  <[9%positive := Accelerator.self_obj (VRef 1)]> Fake.h1.

(** An instance (8) over the fake strategy with a stray [model] entry in
    its own dictionary. *)
Definition h_stray : heap :=
  <[8%positive := Obj "Accelerator"
      (<["model" := VRef 6]> (<["training_type_plugin" := VRef 1]> ∅))]> Fake.h0.

End Doubles.

(** ** Facts about the object model *)

Import Py.

Section Store.

Variable classes : string → namespace.

Lemma bind_normal {A B} (m : M A) (k : A → M B) h a h' :
  m h = Normal a h' → bind m k h = k a h'.
Proof. unfold bind. by intros ->. Qed.

Lemma bind_raised {A B} (m : M A) (k : A → M B) h e h' :
  m h = Raised e h' → bind m k h = Raised e h'.
Proof. unfold bind. by intros ->. Qed.

Lemma bind_discard {A} (m : M A) h :
  bind m (λ _, ret VNone) h = discard (m h).
Proof. unfold bind, discard, ret. by destruct (m h). Qed.

Lemma load_slot l name h x :
  slot h l name = Some x → load l name h = Normal x h.
Proof.
  unfold slot, load. destruct (h !! l) as [o|]; simpl; [|done].
  by intros ->.
Qed.

Lemma defines_false ns name : defines ns name = false → ns !! name = None.
Proof. unfold defines. by destruct (ns !! name). Qed.

(** What [default_protocol] says, entry by entry. *)
Lemma default_protocol_spec ns :
  default_protocol ns = true →
  ns !! "__getattribute__" = None ∧ ns !! "__getattr__" = None ∧
  ns !! "__setattr__" = None ∧ has_dict ns = true.
Proof.
  unfold default_protocol. intros H.
  apply andb_prop in H as [H Hd]. apply andb_prop in H as [H Hs].
  apply andb_prop in H as [Hg Hf].
  apply negb_true_iff in Hg, Hf, Hs.
  by repeat split; try apply defines_false.
Qed.

(** Without hooks, reading is [object.__getattribute__]. *)
Lemma getattr_default l o name h :
  h !! l = Some o →
  classes (obj_class o) !! "__getattribute__" = None →
  classes (obj_class o) !! "__getattr__" = None →
  getattr classes (VRef l) name h = default_getattribute classes l o name h.
Proof.
  unfold getattr. intros -> -> ->.
  by destruct (default_getattribute classes l o name h).
Qed.

(** Without a hook, writing is [object.__setattr__]. *)
Lemma setattr_default l o name x h :
  h !! l = Some o →
  classes (obj_class o) !! "__setattr__" = None →
  setattr classes (VRef l) name x h = default_setattr classes l o name x h.
Proof. unfold setattr. by intros -> ->. Qed.

(** [load] and [store] are [getattr] and [setattr] on an instance whose
    class leaves the protocol to [object] and has no member of that
    name. *)
Lemma getattr_no_member l o name h :
  h !! l = Some o →
  default_protocol (classes (obj_class o)) = true →
  classes (obj_class o) !! name = None →
  getattr classes (VRef l) name h = load l name h.
Proof.
  intros Ho Hp Hn. destruct (default_protocol_spec _ Hp) as (Hg & Hf & _ & Hd).
  rewrite (getattr_default l o) by done.
  unfold default_getattribute, instance_entry, load. by rewrite Ho, Hn, Hd.
Qed.

Lemma setattr_no_member l o name x h :
  h !! l = Some o →
  default_protocol (classes (obj_class o)) = true →
  classes (obj_class o) !! name = None →
  setattr classes (VRef l) name x h = store l name x h.
Proof.
  intros Ho Hp Hn. destruct (default_protocol_spec _ Hp) as (_ & _ & Hs & Hd).
  rewrite (setattr_default l o) by done.
  unfold default_setattr, store. by rewrite Ho, Hn, Hd.
Qed.

(** Assigning an attribute that is no property writes the dictionary. *)
Lemma setattr_plain l o name x h :
  h !! l = Some o →
  default_protocol (classes (obj_class o)) = true →
  is_data_descriptor (classes (obj_class o)) name = false →
  setattr classes (VRef l) name x h = Normal () (set_slot l o name x h).
Proof.
  intros Ho Hp Hn. destruct (default_protocol_spec _ Hp) as (_ & _ & Hs & Hd).
  rewrite (setattr_default l o) by done.
  unfold default_setattr, is_data_descriptor in *. rewrite Hd.
  destruct (classes (obj_class o) !! name) as [[g s|body|g|v]|]; done.
Qed.

(** Reading it back finds what the dictionary holds. *)
Lemma getattr_plain l o name x h :
  h !! l = Some o →
  default_protocol (classes (obj_class o)) = true →
  is_data_descriptor (classes (obj_class o)) name = false →
  obj_dict o !! name = Some x →
  getattr classes (VRef l) name h = Normal x h.
Proof.
  intros Ho Hp Hn Hx. destruct (default_protocol_spec _ Hp) as (Hg & Hf & _ & Hd).
  rewrite (getattr_default l o) by done.
  unfold default_getattribute, instance_entry, is_data_descriptor in *.
  rewrite Hd, Hx.
  destruct (classes (obj_class o) !! name) as [[g s|body|g|v]|]; done.
Qed.

Lemma slot_set_slot_eq l o name x h :
  slot (set_slot l o name x h) l name = Some x.
Proof.
  unfold slot, set_slot. rewrite lookup_insert_eq. simpl.
  by rewrite lookup_insert_eq.
Qed.

Lemma slot_set_slot_ne l o name x h l' name' :
  h !! l = Some o → (l ≠ l' ∨ name ≠ name') →
  slot (set_slot l o name x h) l' name' = slot h l' name'.
Proof.
  unfold slot, set_slot. intros Ho Hne.
  destruct (decide (l = l')) as [<-|Hl].
  - rewrite lookup_insert_eq, Ho. simpl. destruct Hne as [|Hn]; [done|].
    by rewrite lookup_insert_ne.
  - by rewrite lookup_insert_ne.
Qed.

Lemma fresh_not_allocated (h : heap) : h !! fresh (dom h) = None.
Proof. apply not_elem_of_dom, is_fresh. Qed.

Lemma allocated_not_fresh (h : heap) l o : h !! l = Some o → l ≠ fresh (dom h).
Proof. intros Ho ->. by rewrite fresh_not_allocated in Ho. Qed.

End Store.

(** ** The constructor *)

Section Construction.

Variable classes : string → namespace.

Lemma new_accelerator h :
  new Accelerator.cls h
  = Normal (Accelerator.new_self h) (<[Accelerator.new_self h := Obj "Accelerator" ∅]> h).
Proof. reflexivity. Qed.

(** Line 51 of the source, on the instance just made. *)
Lemma init_assigns_strategy h s :
  store (Accelerator.new_self h) "training_type_plugin" s
        (<[Accelerator.new_self h := Obj "Accelerator" ∅]> h)
  = Normal () (<[Accelerator.new_self h := Accelerator.self_obj s]> h).
Proof.
  unfold store, set_slot, Accelerator.self_obj. rewrite lookup_insert_eq. simpl.
  by rewrite insert_insert_eq.
Qed.

(** Without a precision plugin the constructor allocates the instance and
    does nothing else. *)
Lemma construct_without_precision s h :
  Accelerator.construct classes VNone s h
  = Normal (VRef (Accelerator.new_self h)) (<[Accelerator.new_self h := Accelerator.self_obj s]> h).
Proof.
  unfold Accelerator.construct.
  rewrite (bind_normal _ _ _ _ _ (new_accelerator h)).
  unfold Accelerator.__init__.
  rewrite bool_decide_eq_false_2 by (intros Hn; by apply Hn).
  unfold bind at 1. unfold bind at 1. unfold bind at 1.
  by rewrite init_assigns_strategy.
Qed.

(** With a precision plugin, whatever the strategy argument is, the
    constructor goes on to [setattr] on it, in the store that has the
    instance. *)
Lemma construct_with_precision_steps p s h :
  p ≠ VNone →
  Accelerator.construct classes p s h
  = match setattr classes s "_precision_plugin" p
            (<[Accelerator.new_self h := Accelerator.self_obj s]> h) with
    | Normal _ h' => Normal (VRef (Accelerator.new_self h)) h'
    | Raised e h' => Raised e h'
    end.
Proof.
  intros Hp. unfold Accelerator.construct.
  rewrite (bind_normal _ _ _ _ _ (new_accelerator h)).
  unfold Accelerator.__init__.
  rewrite bool_decide_eq_true_2 by done.
  unfold bind at 1. unfold bind at 1. unfold bind at 1.
  rewrite init_assigns_strategy.
  unfold bind at 1.
  rewrite (load_slot _ _ _ s).
  - by destruct (setattr _ _ _ _ _).
  - unfold slot, Accelerator.self_obj. rewrite lookup_insert_eq. simpl.
    by rewrite lookup_insert_eq.
Qed.

(** With a precision plugin and a strategy that keeps [_precision_plugin]
    in its dictionary, the constructor also writes that entry. *)
Lemma construct_with_precision p l o h :
  p ≠ VNone →
  h !! l = Some o →
  default_protocol (classes (obj_class o)) = true →
  is_data_descriptor (classes (obj_class o)) "_precision_plugin" = false →
  Accelerator.construct classes p (VRef l) h
  = Normal (VRef (Accelerator.new_self h))
      (set_slot l o "_precision_plugin" p
         (<[Accelerator.new_self h := Accelerator.self_obj (VRef l)]> h)).
Proof.
  intros Hp Ho Hdp Hd. rewrite construct_with_precision_steps by done.
  rewrite (setattr_plain _ l o); [done| |done|done].
  rewrite lookup_insert_ne; [done|].
  intros E. by apply (allocated_not_fresh h l o).
Qed.

End Construction.

(** C1.  When the constructor is given a precision plugin [p] other than
    None and a strategy that keeps [_precision_plugin] in its dictionary
    (its class leaves the attribute protocol to [object] and has no
    property of that name), the construction returns and afterwards that
    entry of the strategy is [p], and so is what
    [strategy._precision_plugin] reads, whatever the entry held (or did
    not hold) before. *)
Theorem precision_slot_overwritten classes p s h :
  p ≠ VNone →
  Accelerator.plain_slot classes h s "_precision_plugin" →
  ∃ l self h',
    s = VRef l ∧
    Accelerator.construct classes p s h = Normal (VRef self) h' ∧
    slot h' l "_precision_plugin" = Some p ∧
    getattr classes s "_precision_plugin" h' = Normal p h'.
Proof.
  intros Hp Hs. destruct s as [|l| | |]; try done.
  simpl in Hs. destruct (h !! l) as [o|] eqn:Ho; [|done].
  destruct Hs as [Hdp Hd].
  exists l, (Accelerator.new_self h). eexists.
  split; [done|]. split.
  { by apply construct_with_precision. }
  split.
  - apply slot_set_slot_eq.
  - eapply getattr_plain.
    + unfold set_slot. apply lookup_insert_eq.
    + done.
    + done.
    + simpl. apply lookup_insert_eq.
Qed.

(** C2.  When the constructor is given None for the precision plugin, it
    returns a new instance and every object that was in the store before
    is as it was; in particular no [_precision_plugin] entry changed. *)
Theorem precision_slot_untouched classes s h :
  ∃ self h',
    Accelerator.construct classes VNone s h = Normal (VRef self) h' ∧
    h !! self = None ∧
    (∀ l, is_Some (h !! l) → h' !! l = h !! l) ∧
    (∀ l, slot h' l "_precision_plugin" = slot h l "_precision_plugin").
Proof.
  exists (Accelerator.new_self h). eexists.
  split; [apply construct_without_precision|].
  pose proof (fresh_not_allocated h) as Hf.
  split; [exact Hf|]. split.
  - intros l [o Ho]. rewrite lookup_insert_ne; [done|].
    intros E. by apply (allocated_not_fresh h l o).
  - intros l. unfold slot.
    destruct (decide (Accelerator.new_self h = l)) as [<-|Hl].
    + rewrite lookup_insert_eq. unfold Accelerator.new_self in *.
      rewrite Hf. simpl. by rewrite lookup_insert_ne.
    + by rewrite lookup_insert_ne.
Qed.

(** C9.  With a precision plugin [p] other than None and a strategy [l]
    that keeps [_precision_plugin] in its dictionary (its class leaves the
    attribute protocol to [object] and has no property of that name), the
    constructor changes the strategy in that one entry and leaves every
    other entry of it, [model] included, and every other object as they
    were; and the outcome is the same under any other implementation of
    the collaborator classes that leaves the strategy's class so (no
    setter of the strategy and no method of the precision plugin takes
    part in it). *)
Theorem constructor_writes_one_slot classes p l o h :
  p ≠ VNone →
  h !! l = Some o →
  default_protocol (classes (obj_class o)) = true →
  is_data_descriptor (classes (obj_class o)) "_precision_plugin" = false →
  ∃ h',
    Accelerator.construct classes p (VRef l) h
    = Normal (VRef (Accelerator.new_self h)) h' ∧
    h' !! l = Some (Obj (obj_class o) (<["_precision_plugin" := p]> (obj_dict o))) ∧
    (∀ name, name ≠ "_precision_plugin" → slot h' l name = slot h l name) ∧
    slot h' l "model" = slot h l "model" ∧
    (∀ l', l' ≠ l → is_Some (h !! l') → h' !! l' = h !! l') ∧
    (∀ classes' : string → namespace,
       default_protocol (classes' (obj_class o)) = true →
       is_data_descriptor (classes' (obj_class o)) "_precision_plugin" = false →
       Accelerator.construct classes' p (VRef l) h = Normal (VRef (Accelerator.new_self h)) h').
Proof.
  intros Hp Ho Hdp Hd. eexists.
  split; [by apply construct_with_precision|].
  assert (Hl : Accelerator.new_self h ≠ l).
  { intros E. by apply (allocated_not_fresh h l o). }
  assert (Ho' : <[Accelerator.new_self h := Accelerator.self_obj (VRef l)]> h !! l = Some o).
  { by rewrite lookup_insert_ne. }
  assert (Hs : ∀ name, name ≠ "_precision_plugin" →
    slot (set_slot l o "_precision_plugin" p
            (<[Accelerator.new_self h := Accelerator.self_obj (VRef l)]> h)) l name
    = slot h l name).
  { intros name Hn. rewrite slot_set_slot_ne; [|done|right; congruence].
    unfold slot. by rewrite Ho', Ho. }
  split; [apply lookup_insert_eq|].
  split; [exact Hs|].
  split; [by apply Hs|].
  split.
  - intros l' Hl' [o' Ho'']. unfold set_slot.
    rewrite lookup_insert_ne by congruence.
    rewrite lookup_insert_ne; [done|].
    intros E. by apply (allocated_not_fresh h l' o').
  - intros classes' Hdp' Hd'. by apply construct_with_precision.
Qed.

(** C6, as the code has it.  The constructor does not check the strategy
    argument.  With None for both arguments it returns an instance that
    holds None; with None for the strategy and a precision plugin, the
    assignment to [_precision_plugin] of None raises AttributeError, after
    the instance was made. *)
Theorem null_strategy_not_checked classes h :
  Accelerator.construct classes VNone VNone h
  = Normal (VRef (Accelerator.new_self h))
      (<[Accelerator.new_self h := Accelerator.self_obj VNone]> h) ∧
  ∀ p, p ≠ VNone →
    Accelerator.construct classes p VNone h
    = Raised (AttributeError "NoneType" "_precision_plugin")
        (<[Accelerator.new_self h := Accelerator.self_obj VNone]> h).
Proof.
  split.
  - apply construct_without_precision.
  - intros p Hp. by rewrite construct_with_precision_steps.
Qed.

(** C10.  The class statement leaves [__abstractmethods__] empty, so
    making an instance of the base class does not raise (it would under
    ABCMeta), the constructor returns for any strategy argument when no
    precision plugin is given, and [auto_device_count] of the base class
    returns None. *)
Theorem base_class_instantiable classes s h :
  abstractmethods Accelerator.cls = [] ∧
  is_raised (new Accelerator.cls h) = false ∧
  is_raised (new (Class "Accelerator" ABCMeta ["auto_device_count"]) h) = true ∧
  Accelerator.construct classes VNone s h
  = Normal (VRef (Accelerator.new_self h))
      (<[Accelerator.new_self h := Accelerator.self_obj s]> h) ∧
  Accelerator.auto_device_count h = Normal VNone h.
Proof.
  split; [reflexivity|].
  split; [by rewrite new_accelerator|].
  split; [reflexivity|].
  split; [apply construct_without_precision|reflexivity].
Qed.

Lemma members_auto_device_count classes :
  Client.members classes !! "auto_device_count"
  = Some (Method (λ _ args,
            match args with
            | [] => Accelerator.auto_device_count
            | _ => Client.arity_error
            end)).
Proof. reflexivity. Qed.

Lemma members_default_protocol classes :
  default_protocol (Client.members classes) = true.
Proof. reflexivity. Qed.

Lemma table_accelerator classes depth :
  Client.table classes (S depth) "Accelerator"
  = Client.members (Client.table classes depth).
Proof. reflexivity. Qed.

(** C7, at the code.  The class marks [auto_device_count] abstract and is
    no ABC, so nothing makes the method mandatory: making an instance of
    the class as written returns, and so does making an instance of a
    subclass that adds nothing; [auto_device_count] called on the instance
    returns None.  With the same class body under ABCMeta, making the
    instance raises TypeError before [__init__] runs. *)
Theorem abstract_marker_not_enforced classes depth s h :
  cls_abstract_marked Accelerator.cls = ["auto_device_count"] ∧
  cls_metaclass Accelerator.cls = type_ ∧
  (∃ self h',
     Accelerator.construct classes VNone s h = Normal (VRef self) h' ∧
     call_method (Client.table classes (S depth)) (VRef self)
       "auto_device_count" [] h' = Normal VNone h') ∧
  (∀ sub,
     Client.construct_as classes
       (Class sub type_ (cls_abstract_marked Accelerator.cls)) VNone s h
     = Normal (VRef (Accelerator.new_self h))
         (<[Accelerator.new_self h :=
              Obj sub (<["training_type_plugin" := s]> ∅)]> h)) ∧
  Client.construct_as classes
    (Class "Accelerator" ABCMeta (cls_abstract_marked Accelerator.cls))
    VNone s h
  = Raised (TypeError "Can't instantiate abstract class") h.
Proof.
  split; [reflexivity|]. split; [reflexivity|]. split.
  { exists (Accelerator.new_self h). eexists.
    split; [apply construct_without_precision|].
    destruct (default_protocol_spec _
                (members_default_protocol (Client.table classes depth)))
      as (Hg & Hf & _ & Hd).
    set (T := Client.table classes (S depth)).
    set (self := Accelerator.new_self h).
    set (h' := <[self := Accelerator.self_obj s]> h).
    assert (Hself : h' !! self = Some (Accelerator.self_obj s))
      by apply lookup_insert_eq.
    assert (HT : T (obj_class (Accelerator.self_obj s))
                 = Client.members (Client.table classes depth))
      by reflexivity.
    assert (Hget : getattr T (VRef self) "auto_device_count" h'
                   = Normal (VBound self "auto_device_count") h').
    { rewrite (getattr_default T self (Accelerator.self_obj s));
        [|done|by rewrite HT|by rewrite HT].
      unfold default_getattribute, instance_entry.
      by rewrite HT, members_auto_device_count, Hd. }
    unfold call_method. rewrite (bind_normal _ _ _ _ _ Hget).
    unfold call. by rewrite Hself, HT, members_auto_device_count. }
  split.
  - intros sub. unfold Client.construct_as, new. simpl.
    unfold bind, alloc, Accelerator.__init__, bind, store. simpl.
    rewrite lookup_insert_eq. simpl. unfold set_slot. simpl.
    by rewrite insert_insert_eq.
  - reflexivity.
Qed.

(** C5.  [get_device_stats] of the base class raises NotImplementedError
    for every instance, device argument and store, leaves the store as it
    is, and never returns a value. *)
Theorem get_device_stats_unimplemented self device h :
  Accelerator.get_device_stats self device h = Raised NotImplementedError h ∧
  (∀ classes, Accelerator.run_op classes self (Accelerator.GetDeviceStats device) h
              = Raised NotImplementedError h) ∧
  (∀ d h', Accelerator.get_device_stats self device h ≠ Normal d h').
Proof.
  assert (E : Accelerator.get_device_stats self device h
              = Raised NotImplementedError h) by reflexivity.
  split; [exact E|]. split.
  - intros classes. simpl. exact E.
  - intros d h'. rewrite E. discriminate.
Qed.

(** ** The operations of an instance *)

Section Operations.

Variable classes : string → namespace.

Lemma call_method_resolved h v name f args :
  method_of classes h v name = Some f →
  call_method classes v name args h = f args h.
Proof.
  unfold method_of.
  destruct v as [|l| | |]; try done.
  destruct (h !! l) as [o|] eqn:Ho; [|done].
  destruct (defines (classes (obj_class o)) "__getattribute__") eqn:Hg; [done|].
  apply defines_false in Hg.
  destruct (classes (obj_class o) !! name) as [[g st|body|g|x]|] eqn:Hc;
    try done.
  destruct (obj_dict o !! name) eqn:Hd; [done|].
  intros [= <-].
  assert (Hget : getattr classes (VRef l) name h = Normal (VBound l name) h).
  { unfold getattr. rewrite Ho, Hg.
    unfold default_getattribute, instance_entry. rewrite Hc, Hd.
    by destruct (has_dict (classes (obj_class o))). }
  unfold call_method. rewrite (bind_normal _ _ _ _ _ Hget).
  unfold call. by rewrite Ho, Hc.
Qed.

(** Each life-cycle method is: read the reference, make the call, drop
    the value. *)
Lemma forward_call self s name args h :
  Accelerator.strategy_of h self = Some s →
  (s <- load self "training_type_plugin" ;;
   call_method classes s name args ;; ret VNone) h
  = discard (call_method classes s name args h).
Proof.
  intros Hs. rewrite (bind_normal _ _ h s h) by by apply load_slot.
  apply bind_discard.
Qed.

Lemma discard_raised {A} (r : outcome A) e h :
  r = Raised e h → discard r = Raised e h.
Proof. by intros ->. Qed.

Lemma discard_normal {A} (r : outcome A) a h :
  r = Normal a h → discard r = Normal VNone h.
Proof. by intros ->. Qed.

End Operations.

(** C4.  For an instance holding [s], [setup_environment], [setup] and
    [teardown] are the strategy's method call of the same name with the
    value dropped, in whatever store they are called (nothing records
    which of them ran before); when the strategy's function raises, the
    caller gets that exception and the store the function left, and when
    it returns, the caller gets None and that store.  In particular
    [setup] on an instance that was just constructed forwards. *)
Theorem lifecycle_calls_forwarded classes self s h :
  Accelerator.strategy_of h self = Some s →
  (Accelerator.setup_environment classes self h
   = discard (call_method classes s "setup_environment" [] h)) ∧
  (∀ trainer, Accelerator.setup classes self trainer h
   = discard (call_method classes s "setup" [trainer] h)) ∧
  (Accelerator.teardown classes self h
   = discard (call_method classes s "teardown" [] h)) ∧
  (∀ f e h', method_of classes h s "setup_environment" = Some f →
     f [] h = Raised e h' →
     Accelerator.setup_environment classes self h = Raised e h') ∧
  (∀ trainer f e h', method_of classes h s "setup" = Some f →
     f [trainer] h = Raised e h' →
     Accelerator.setup classes self trainer h = Raised e h') ∧
  (∀ f e h', method_of classes h s "teardown" = Some f →
     f [] h = Raised e h' →
     Accelerator.teardown classes self h = Raised e h') ∧
  (∀ trainer f x h', method_of classes h s "setup" = Some f →
     f [trainer] h = Normal x h' →
     Accelerator.setup classes self trainer h = Normal VNone h') ∧
  (∀ h0 trainer,
     Accelerator.setup classes (Accelerator.new_self h0) trainer
       (heap_of (Accelerator.construct classes VNone s h0))
     = discard (call_method classes s "setup" [trainer]
         (heap_of (Accelerator.construct classes VNone s h0)))).
Proof.
  intros Hs.
  assert (Hfw : ∀ name args,
    (s <- load self "training_type_plugin" ;;
     call_method classes s name args ;; ret VNone) h
    = discard (call_method classes s name args h)).
  { intros name args. by apply forward_call. }
  split; [apply Hfw|]. split; [intros trainer; apply Hfw|].
  split; [apply Hfw|].
  split.
  { intros f e h' Hf Hr. unfold Accelerator.setup_environment.
    rewrite Hfw. apply discard_raised.
    by rewrite (call_method_resolved _ _ _ _ f). }
  split.
  { intros trainer f e h' Hf Hr. unfold Accelerator.setup.
    rewrite Hfw. apply discard_raised.
    by rewrite (call_method_resolved _ _ _ _ f). }
  split.
  { intros f e h' Hf Hr. unfold Accelerator.teardown.
    rewrite Hfw. apply discard_raised.
    by rewrite (call_method_resolved _ _ _ _ f). }
  split.
  { intros trainer f x h' Hf Hr. unfold Accelerator.setup.
    rewrite Hfw. apply (discard_normal _ x).
    by rewrite (call_method_resolved _ _ _ _ f). }
  intros h0 trainer. rewrite construct_without_precision. simpl.
  apply forward_call.
  unfold Accelerator.strategy_of, slot, Accelerator.self_obj.
  rewrite lookup_insert_eq. simpl. by rewrite lookup_insert_eq.
Qed.

(** C3.  For an instance holding [s], the property [model] is the
    attribute [model] of [s]: the getter is [s.model] and the setter is
    the assignment [s.model = X].  For a strategy whose class leaves the
    attribute protocol to [object] and either keeps [model] in the
    instance dictionary or makes it a property that reads and writes a
    private entry [b] of it: setting the property to [X] returns, and
    right after it the property reads [X], the strategy's entry holds
    [X], [s.model] reads [X], the instance still holds [s], and no object
    other than the strategy has changed (the instance keeps no copy). *)
Theorem model_set_then_get classes self s X h :
  Accelerator.strategy_of h self = Some s →
  Accelerator.model classes self h = getattr classes s "model" h ∧
  Accelerator.model_setter classes self X h
  = discard (setattr classes s "model" X h) ∧
  (Accelerator.plain_slot classes h s "model" →
   ∃ l h',
     s = VRef l ∧
     Accelerator.model_setter classes self X h = Normal VNone h' ∧
     Accelerator.model classes self h' = Normal X h' ∧
     slot h' l "model" = Some X ∧
     getattr classes s "model" h' = Normal X h' ∧
     Accelerator.strategy_of h' self = Some s ∧
     (∀ l', l' ≠ l → h' !! l' = h !! l')) ∧
  (∀ l o b,
     s = VRef l → h !! l = Some o →
     default_protocol (classes (obj_class o)) = true →
     classes (obj_class o) !! "model"
     = Some (Property (λ l, load l b) (Some (λ l x, store l b x))) →
     b ≠ "training_type_plugin" →
     ∃ h',
       Accelerator.model_setter classes self X h = Normal VNone h' ∧
       Accelerator.model classes self h' = Normal X h' ∧
       slot h' l b = Some X ∧
       getattr classes s "model" h' = Normal X h' ∧
       Accelerator.strategy_of h' self = Some s ∧
       (∀ l', l' ≠ l → h' !! l' = h !! l')).
Proof.
  intros Hs.
  assert (Hget : ∀ h1, Accelerator.strategy_of h1 self = Some s →
    Accelerator.model classes self h1 = getattr classes s "model" h1).
  { intros h1 H1. unfold Accelerator.model.
    by rewrite (bind_normal _ _ h1 s h1) by by apply load_slot. }
  assert (Hset : Accelerator.model_setter classes self X h
                 = discard (setattr classes s "model" X h)).
  { unfold Accelerator.model_setter.
    rewrite (bind_normal _ _ h s h) by by apply load_slot.
    apply bind_discard. }
  split; [by apply Hget|]. split; [exact Hset|]. split.
  - intros Hp. destruct s as [|l| | |]; try done.
    simpl in Hp. destruct (h !! l) as [o|] eqn:Ho; [|done].
    destruct Hp as [Hdp Hd].
    exists l, (set_slot l o "model" X h).
    assert (Hkeep : Accelerator.strategy_of (set_slot l o "model" X h) self
                    = Some (VRef l)).
    { unfold Accelerator.strategy_of.
      rewrite slot_set_slot_ne; [done|done|right; congruence]. }
    assert (Hread : getattr classes (VRef l) "model" (set_slot l o "model" X h)
                    = Normal X (set_slot l o "model" X h)).
    { eapply getattr_plain.
      - unfold set_slot. apply lookup_insert_eq.
      - done.
      - done.
      - simpl. apply lookup_insert_eq. }
    split; [done|]. split.
    { by rewrite Hset, (setattr_plain classes l o). }
    split; [by rewrite Hget|].
    split; [apply slot_set_slot_eq|].
    split; [done|]. split; [done|].
    intros l' Hl'. unfold set_slot. by rewrite lookup_insert_ne.
  - intros l o b -> Ho Hdp Hm Hb.
    destruct (default_protocol_spec _ Hdp) as (Hg & Hf & Hsa & _).
    exists (set_slot l o b X h).
    assert (Hkeep : Accelerator.strategy_of (set_slot l o b X h) self
                    = Some (VRef l)).
    { unfold Accelerator.strategy_of.
      rewrite slot_set_slot_ne; [done|done|right; congruence]. }
    assert (Hwrite : setattr classes (VRef l) "model" X h
                     = Normal () (set_slot l o b X h)).
    { rewrite (setattr_default classes l o) by done.
      unfold default_setattr. rewrite Hm. unfold store. by rewrite Ho. }
    assert (Hread : getattr classes (VRef l) "model" (set_slot l o b X h)
                    = Normal X (set_slot l o b X h)).
    { rewrite (getattr_default classes l
                 (Obj (obj_class o) (<[b := X]> (obj_dict o))));
        [|unfold set_slot; apply lookup_insert_eq|done|done].
      unfold default_getattribute. simpl obj_class. rewrite Hm.
      apply load_slot, slot_set_slot_eq. }
    split; [by rewrite Hset, Hwrite|].
    split; [by rewrite Hget|].
    split; [apply slot_set_slot_eq|].
    split; [done|]. split; [done|].
    intros l' Hl'. unfold set_slot. by rewrite lookup_insert_ne.
Qed.

(** ** The reference to the strategy *)

Section Reference.

Variable classes : string → namespace.
Variable self : loc.
Hypothesis Hkeep : Accelerator.collaborators_keep classes self.

Lemma keeps_ret {A} (a : A) : Accelerator.keeps self (ret a).
Proof. by intros h. Qed.

Lemma keeps_raise {A} e : Accelerator.keeps self (raise (A:=A) e).
Proof. by intros h. Qed.

Lemma keeps_load l name : Accelerator.keeps self (load l name).
Proof.
  intros h. unfold load. destruct (h !! l) as [o|]; [|done].
  by destruct (obj_dict o !! name).
Qed.

Lemma keeps_bind {A B} (m : M A) (k : A → M B) :
  Accelerator.keeps self m → (∀ a, Accelerator.keeps self (k a)) →
  Accelerator.keeps self (bind m k).
Proof.
  intros Hm Hk h. unfold bind. specialize (Hm h).
  destruct (m h) as [a h'|e h']; simpl in *; [|done].
  by rewrite Hk.
Qed.

(** Writing an entry other than [training_type_plugin], of any object. *)
Lemma keeps_set_slot l o name x h :
  h !! l = Some o → name ≠ "training_type_plugin" →
  Accelerator.strategy_of (set_slot l o name x h) self
  = Accelerator.strategy_of h self.
Proof.
  intros Ho Hn. unfold Accelerator.strategy_of.
  apply slot_set_slot_ne; [done|by right].
Qed.

Lemma keeps_call f args : Accelerator.keeps self (call classes f args).
Proof.
  intros h. destruct f as [|l| | |l m]; try done.
  - unfold call. destruct (h !! l) as [o|]; [|done].
    destruct (classes (obj_class o) !! "__call__") as [[g st|body|g|x]|] eqn:Hc;
      try done.
    apply (Hkeep _ _ _ Hc).
  - unfold call. destruct (h !! l) as [o|]; [|done].
    destruct (classes (obj_class o) !! m) as [[g st|body|g|x]|] eqn:Hc;
      try done.
    apply (Hkeep _ _ _ Hc).
Qed.

(** A hook is a member of a collaborator class like any other. *)
Lemma keeps_special c name l hook args :
  classes c !! name = Some hook →
  Accelerator.keeps self (special classes l hook args).
Proof.
  intros Hc. pose proof (Hkeep _ _ _ Hc) as Hm.
  destruct hook as [g st|body|g|x]; simpl in *.
  - apply keeps_bind; [apply Hm|]. intros f. apply keeps_call.
  - apply Hm.
  - apply keeps_bind; [apply Hm|]. intros f. apply keeps_call.
  - apply keeps_call.
Qed.

Lemma keeps_default_getattribute l o name :
  Accelerator.keeps self (default_getattribute classes l o name).
Proof.
  intros h. unfold default_getattribute.
  destruct (classes (obj_class o) !! name) as [[g st|body|g|x]|] eqn:Hc.
  - destruct (Hkeep _ _ _ Hc) as [Hg _]. apply Hg.
  - by destruct (instance_entry classes o name).
  - destruct (instance_entry classes o name); [done|].
    apply (Hkeep _ _ _ Hc).
  - by destruct (instance_entry classes o name).
  - by destruct (instance_entry classes o name).
Qed.

Lemma keeps_getattr v name : Accelerator.keeps self (getattr classes v name).
Proof.
  intros h. destruct v as [|l| | |]; try done.
  unfold getattr. destruct (h !! l) as [o|] eqn:Ho; [|done].
  set (first := match classes (obj_class o) !! "__getattribute__" with
                | Some hook => special classes l hook [VStr name] h
                | None => default_getattribute classes l o name h
                end).
  assert (Hfirst : Accelerator.strategy_of (heap_of first) self
                   = Accelerator.strategy_of h self).
  { unfold first.
    destruct (classes (obj_class o) !! "__getattribute__") as [hook|] eqn:Hg.
    - apply (keeps_special _ _ _ _ _ Hg).
    - apply keeps_default_getattribute. }
  destruct first as [x h'|e h']; [done|].
  destruct (classes (obj_class o) !! "__getattr__") as [hook|] eqn:Hf; [|done].
  destruct (is_attribute_error e); [|done].
  simpl in Hfirst. rewrite <- Hfirst.
  apply (keeps_special _ _ _ _ _ Hf).
Qed.

Lemma keeps_void {A} (m : M A) :
  Accelerator.keeps self m → Accelerator.keeps self (λ h, void (m h)).
Proof. intros Hm h. specialize (Hm h). by destruct (m h). Qed.

Lemma keeps_setattr v name x :
  name ≠ "training_type_plugin" →
  Accelerator.keeps self (setattr classes v name x).
Proof.
  intros Hn h. destruct v as [|l| | |]; try done.
  unfold setattr. destruct (h !! l) as [o|] eqn:Ho; [|done].
  destruct (classes (obj_class o) !! "__setattr__") as [hook|] eqn:Hs.
  { apply (keeps_void _ (keeps_special _ _ l hook [VStr name; x] Hs)). }
  unfold default_setattr.
  destruct (classes (obj_class o) !! name) as [[g [st|]|body|g|y]|] eqn:Hc;
    try (destruct (has_dict (classes (obj_class o))); [|done]; simpl;
         by apply keeps_set_slot).
  - destruct (Hkeep _ _ _ Hc) as [_ Hst]. apply Hst.
  - done.
Qed.

Lemma keeps_call_method v name args :
  Accelerator.keeps self (call_method classes v name args).
Proof.
  apply keeps_bind; [apply keeps_getattr|].
  intros f. apply keeps_call.
Qed.

(** No operation of the class assigns [self.training_type_plugin]. *)
Lemma keeps_run_op o : Accelerator.keeps self (Accelerator.run_op classes self o).
Proof.
  destruct o; simpl;
    unfold Accelerator.setup_environment, Accelerator.setup, Accelerator.model,
      Accelerator.model_setter, Accelerator.lightning_module,
      Accelerator.root_device, Accelerator.teardown,
      Accelerator.get_device_stats;
    repeat first
      [ apply keeps_call_method
      | apply keeps_getattr
      | apply keeps_setattr; discriminate
      | apply keeps_load
      | apply keeps_ret
      | apply keeps_raise
      | apply keeps_bind; [|intros ?] ].
Qed.

Lemma keeps_run_ops os h :
  Accelerator.strategy_of (Accelerator.run_ops classes self os h) self
  = Accelerator.strategy_of h self.
Proof.
  revert h. induction os as [|o os IH]; intros h; simpl; [done|].
  rewrite IH. apply keeps_run_op.
Qed.

End Reference.

(** C8.  An instance made by the constructor from strategy [s] holds [s],
    and after any sequence of [setup_environment], [setup], getting and
    setting [model], [lightning_module], [root_device], [teardown] and
    [get_device_stats], each of which may return or raise, it still holds
    [s] (so never None when [s] is not None), provided no code of the
    collaborators assigns the attribute themselves. *)
Theorem strategy_reference_stable classes p s h self h0 :
  Accelerator.construct classes p s h = Normal (VRef self) h0 →
  Accelerator.collaborators_keep classes self →
  Accelerator.strategy_of h0 self = Some s ∧
  (∀ o, Accelerator.strategy_of
          (heap_of (Accelerator.run_op classes self o h0)) self = Some s) ∧
  (∀ os, Accelerator.strategy_of
           (Accelerator.run_ops classes self os h0) self = Some s).
Proof.
  intros Hc Hk.
  assert (Hnew : Accelerator.strategy_of
    (<[Accelerator.new_self h := Accelerator.self_obj s]> h)
    (Accelerator.new_self h) = Some s).
  { unfold Accelerator.strategy_of, slot, Accelerator.self_obj.
    rewrite lookup_insert_eq. simpl. by rewrite lookup_insert_eq. }
  assert (H0 : Accelerator.strategy_of h0 self = Some s).
  { destruct (decide (p = VNone)) as [->|Hp].
    - rewrite construct_without_precision in Hc.
      injection Hc as <- <-. exact Hnew.
    - rewrite construct_with_precision_steps in Hc by done.
      pose proof (keeps_setattr classes self Hk s "_precision_plugin" p
        ltac:(discriminate)
        (<[Accelerator.new_self h := Accelerator.self_obj s]> h)) as Hset.
      destruct (setattr classes s "_precision_plugin" p _) as [u h'|e h'];
        [|done].
      injection Hc as <- <-. simpl in Hset.
      rewrite <- Hnew. exact Hset. }
  split; [exact H0|]. split.
  - intros o. rewrite <- H0. by apply keeps_run_op.
  - intros os. rewrite <- H0. by apply keeps_run_ops.
Qed.

(** ** The claims at the test doubles *)

Lemma keeps_store self l name x :
  name ≠ "training_type_plugin" → Accelerator.keeps self (store l name x).
Proof.
  intros Hn h. unfold store. destruct (h !! l) as [o|] eqn:Ho; [|done].
  simpl. by apply keeps_set_slot.
Qed.

(** No member of the fake classes assigns [training_type_plugin]. *)
Lemma fake_collaborators_keep self :
  Accelerator.collaborators_keep Fake.classes self.
Proof.
  intros c name mb. unfold Fake.classes.
  destruct (decide (c = "FakeStrategy")) as [_|_];
    [|destruct (decide (c = "FailingStrategy")) as [_|_];
      [|destruct (decide (c = "WrappingStrategy")) as [_|_]]].
  - unfold Fake.strategy_ns. intros H.
    repeat (apply lookup_insert_Some in H; destruct H as [[<- <-]|[_ H]]);
      try (by rewrite lookup_empty in H); simpl;
      repeat split; try intros l args; try destruct args as [|t [|t' args]];
      repeat first
        [ apply keeps_store; discriminate
        | apply keeps_load
        | apply keeps_ret
        | apply keeps_raise
        | apply keeps_bind; [|intros ?] ].
  - unfold Fake.failing_ns. intros H.
    repeat (apply lookup_insert_Some in H; destruct H as [[<- <-]|[_ H]]);
      try (by rewrite lookup_empty in H); simpl;
      intros l args;
      repeat first
        [ apply keeps_store; discriminate
        | apply keeps_raise
        | apply keeps_bind; [|intros ?] ].
  - unfold Fake.wrapping_ns. intros H.
    apply lookup_insert_Some in H. destruct H as [[<- <-]|[_ H]];
      [|by rewrite lookup_empty in H].
    split; [intros l; apply keeps_load|].
    intros l x. apply keeps_store. discriminate.
  - by rewrite lookup_empty.
Qed.

(** The scenario of the specification: an instance made without a
    precision plugin over a strategy holding model A (2); after
    [setup_environment] and [setup] the property [model] reads A; after
    setting it to B (5) it reads B; [teardown] returns and [model] is
    still B. *)
Example life_cycle_scenario :
  let ha := heap_of (Accelerator.setup_environment Fake.classes 8 Fake.h1) in
  let hb := heap_of (Accelerator.setup Fake.classes 8 (VRef 6) ha) in
  let hc := heap_of (Accelerator.model_setter Fake.classes 8 (VRef 5) hb) in
  let hd := heap_of (Accelerator.teardown Fake.classes 8 hc) in
  Accelerator.construct Fake.classes VNone (VRef 1) Fake.h0
  = Normal (VRef 8) Fake.h1 ∧
  Accelerator.model Fake.classes 8 hb = Normal (VRef 2) hb ∧
  Accelerator.model Fake.classes 8 hc = Normal (VRef 5) hc ∧
  Accelerator.lightning_module Fake.classes 8 hc = Normal (VRef 5) hc ∧
  Accelerator.root_device Fake.classes 8 hc = Normal (VStr "cpu") hc ∧
  Accelerator.teardown Fake.classes 8 hc = Normal VNone hd ∧
  Accelerator.model Fake.classes 8 hd = Normal (VRef 5) hd.
Proof. vm_compute. repeat split. Qed.

(** The public setter of the fake strategy raises when it runs; the
    constructor does not run it. *)
Example public_setter_not_run :
  setattr Fake.classes (VRef 1) "precision_plugin" (VRef 4) Fake.h0
  = Raised (UserError "AssertionError" (VRef 4)) Fake.h0 ∧
  is_raised (Accelerator.construct Fake.classes (VRef 4) (VRef 1) Fake.h0)
  = false.
Proof. vm_compute. split; reflexivity. Qed.

(** A strategy whose class overrides [__setattr__] is outside the plain
    case: the assignment in the constructor runs the override, and here
    its RuntimeError comes out, after the instance was made. *)
Example setattr_override_runs :
  default_protocol (Doubles.classes "StrictStrategy") = false ∧
  Accelerator.construct Doubles.classes (VRef 4) (VRef 2) Doubles.h_dyn
  = Raised (UserError "RuntimeError" (VStr "_precision_plugin"))
      (<[9%positive := Accelerator.self_obj (VRef 2)]> Doubles.h_dyn) ∧
  Accelerator.model_setter Doubles.classes 8 (VRef 4)
    (<[8%positive := Accelerator.self_obj (VRef 2)]> Doubles.h_dyn)
  = Raised (UserError "RuntimeError" (VStr "model"))
      (<[8%positive := Accelerator.self_obj (VRef 2)]> Doubles.h_dyn).
Proof. vm_compute. repeat split. Qed.

(** C1 at the fake strategy, whose entry held plugin 3 before. *)
Lemma precision_slot_overwritten_witness :
  VRef 4 ≠ VNone ∧
  Accelerator.plain_slot Fake.classes Fake.h0 (VRef 1) "_precision_plugin" ∧
  ∃ l self h',
    VRef 1 = VRef l ∧
    Accelerator.construct Fake.classes (VRef 4) (VRef 1) Fake.h0
    = Normal (VRef self) h' ∧
    slot h' l "_precision_plugin" = Some (VRef 4) ∧
    getattr Fake.classes (VRef 1) "_precision_plugin" h' = Normal (VRef 4) h'.
Proof.
  assert (Hp : VRef 4 ≠ VNone) by discriminate.
  assert (Hs : Accelerator.plain_slot Fake.classes Fake.h0 (VRef 1)
                 "_precision_plugin") by (split; reflexivity).
  split; [exact Hp|]. split; [exact Hs|].
  exact (precision_slot_overwritten Fake.classes (VRef 4) (VRef 1) Fake.h0 Hp Hs).
Defined.

(** C9 at the fake strategy: [model] stays A, and the empty class table
    gives the same outcome. *)
Lemma constructor_writes_one_slot_witness :
  Fake.h0 !! 1%positive = Some Fake.strategy_obj ∧
  slot (heap_of (Accelerator.construct Fake.classes (VRef 4) (VRef 1) Fake.h0))
       1 "model" = Some (VRef 2) ∧
  Accelerator.construct (λ _, ∅) (VRef 4) (VRef 1) Fake.h0
  = Accelerator.construct Fake.classes (VRef 4) (VRef 1) Fake.h0.
Proof.
  assert (Hp : VRef 4 ≠ VNone) by discriminate.
  assert (Ho : Fake.h0 !! 1%positive = Some Fake.strategy_obj) by reflexivity.
  assert (Hdp : default_protocol (Fake.classes (obj_class Fake.strategy_obj))
                  = true) by reflexivity.
  assert (Hd : is_data_descriptor (Fake.classes (obj_class Fake.strategy_obj))
                 "_precision_plugin" = false) by reflexivity.
  destruct (constructor_writes_one_slot Fake.classes (VRef 4) 1
              Fake.strategy_obj Fake.h0 Hp Ho Hdp Hd)
    as (h' & Hc & _ & _ & Hm & _ & Hany).
  split; [exact Ho|]. split.
  - rewrite Hc. simpl. rewrite Hm. reflexivity.
  - rewrite Hc. apply Hany; reflexivity.
Defined.

(** C6 at a concrete store: a precision plugin and no strategy. *)
Lemma null_strategy_not_checked_witness :
  Accelerator.construct Fake.classes (VRef 4) VNone Fake.h0
  = Raised (AttributeError "NoneType" "_precision_plugin")
      (<[8%positive := Accelerator.self_obj VNone]> Fake.h0).
Proof.
  destruct (null_strategy_not_checked Fake.classes Fake.h0) as [_ H].
  apply (H (VRef 4)). discriminate.
Defined.

(** C6, against the claim as written: with None for both arguments the
    constructor raises nothing; it returns an instance that holds None. *)
Lemma null_strategy_accepted :
  Accelerator.construct Fake.classes VNone VNone ∅
  = Normal (VRef 1) (<[1%positive := Accelerator.self_obj VNone]> ∅) ∧
  is_raised (Accelerator.construct Fake.classes VNone VNone ∅) = false.
Proof.
  assert (E : Accelerator.construct Fake.classes VNone VNone ∅
    = Normal (VRef 1) (<[1%positive := Accelerator.self_obj VNone]> ∅)).
  { vm_compute. reflexivity. }
  split; [exact E|]. by rewrite E.
Qed.

(** C4 at the failing strategy: the caller of [setup] gets the strategy's
    RuntimeError and the store its function left. *)
Lemma lifecycle_calls_forwarded_witness :
  Accelerator.strategy_of Fake.h2 8 = Some (VRef 7) ∧
  Accelerator.setup Fake.classes 8 (VRef 6) Fake.h2
  = Raised (UserError "RuntimeError" (VStr "out of memory"))
      (<[7%positive := Obj "FailingStrategy" (<["half_done" := VInt 1]> ∅)]>
         Fake.h2).
Proof.
  assert (Hs : Accelerator.strategy_of Fake.h2 8 = Some (VRef 7))
    by reflexivity.
  destruct (lifecycle_calls_forwarded Fake.classes 8 (VRef 7) Fake.h2 Hs)
    as (_ & _ & _ & _ & H & _).
  split; [exact Hs|].
  eapply H.
  - reflexivity.
  - vm_compute. reflexivity.
Defined.

(** C3 at the fake strategy, which keeps [model] in its dictionary
    (model B set, then read), and at the wrapping strategy, whose property
    keeps it under [_model]. *)
Lemma model_set_then_get_witness :
  Accelerator.strategy_of Fake.h1 8 = Some (VRef 1) ∧
  Accelerator.plain_slot Fake.classes Fake.h1 (VRef 1) "model" ∧
  (∃ l h',
    VRef 1 = VRef l ∧
    Accelerator.model_setter Fake.classes 8 (VRef 5) Fake.h1 = Normal VNone h' ∧
    Accelerator.model Fake.classes 8 h' = Normal (VRef 5) h' ∧
    slot h' l "model" = Some (VRef 5) ∧
    getattr Fake.classes (VRef 1) "model" h' = Normal (VRef 5) h' ∧
    Accelerator.strategy_of h' 8 = Some (VRef 1) ∧
    (∀ l', l' ≠ l → h' !! l' = Fake.h1 !! l')) ∧
  Accelerator.strategy_of Fake.h3 2 = Some (VRef 1) ∧
  (∃ h',
    Accelerator.model_setter Fake.classes 2 (VRef 5) Fake.h3 = Normal VNone h' ∧
    Accelerator.model Fake.classes 2 h' = Normal (VRef 5) h' ∧
    slot h' 1 "_model" = Some (VRef 5) ∧
    getattr Fake.classes (VRef 1) "model" h' = Normal (VRef 5) h' ∧
    Accelerator.strategy_of h' 2 = Some (VRef 1) ∧
    (∀ l', l' ≠ 1%positive → h' !! l' = Fake.h3 !! l')).
Proof.
  assert (Hs : Accelerator.strategy_of Fake.h1 8 = Some (VRef 1))
    by reflexivity.
  assert (Hp : Accelerator.plain_slot Fake.classes Fake.h1 (VRef 1) "model")
    by (split; reflexivity).
  assert (Hs3 : Accelerator.strategy_of Fake.h3 2 = Some (VRef 1))
    by reflexivity.
  split; [exact Hs|]. split; [exact Hp|]. split.
  { destruct (model_set_then_get Fake.classes 8 (VRef 1) (VRef 5) Fake.h1 Hs)
      as (_ & _ & H & _).
    exact (H Hp). }
  split; [exact Hs3|].
  destruct (model_set_then_get Fake.classes 2 (VRef 1) (VRef 5) Fake.h3 Hs3)
    as (_ & _ & _ & H).
  apply (H 1%positive (Obj "WrappingStrategy" ∅) "_model");
    first [reflexivity | discriminate].
Defined.

(** C8 at the fake strategy: every operation once, in the order of a run. *)
Lemma strategy_reference_stable_witness :
  Accelerator.construct Fake.classes VNone (VRef 1) Fake.h0
  = Normal (VRef 8) Fake.h1 ∧
  Accelerator.strategy_of Fake.h1 8 = Some (VRef 1) ∧
  Accelerator.strategy_of
    (Accelerator.run_ops Fake.classes 8
       [Accelerator.SetupEnvironment; Accelerator.Setup (VRef 6);
        Accelerator.GetModel; Accelerator.SetModel (VRef 5);
        Accelerator.GetLightningModule; Accelerator.GetRootDevice;
        Accelerator.GetDeviceStats (VStr "cpu"); Accelerator.Teardown]
       Fake.h1) 8
  = Some (VRef 1).
Proof.
  assert (Hc : Accelerator.construct Fake.classes VNone (VRef 1) Fake.h0
               = Normal (VRef 8) Fake.h1) by (vm_compute; reflexivity).
  destruct (strategy_reference_stable Fake.classes VNone (VRef 1) Fake.h0 8
              Fake.h1 Hc (fake_collaborators_keep 8)) as (H0 & _ & Hops).
  split; [exact Hc|]. split; [exact H0|]. apply Hops.
Defined.

(** ** Further properties of the class *)

(** *** Instances without a usable strategy *)

Section Unusable.

Variable classes : string → namespace.

Lemma getattr_none name h :
  getattr classes VNone name h = Raised (AttributeError "NoneType" name) h.
Proof. reflexivity. Qed.

Lemma setattr_none name x h :
  setattr classes VNone name x h = Raised (AttributeError "NoneType" name) h.
Proof. reflexivity. Qed.

Lemma call_method_none name args h :
  call_method classes VNone name args h
  = Raised (AttributeError "NoneType" name) h.
Proof. reflexivity. Qed.

Lemma load_missing l o name h :
  h !! l = Some o → obj_dict o !! name = None →
  load l name h = Raised (AttributeError (obj_class o) name) h.
Proof. unfold load. by intros -> ->. Qed.

End Unusable.

(** X1.  An instance that holds None (the constructor accepts it) fails at
    every use of the strategy: each of the seven delegating operations
    raises AttributeError for type NoneType and the name it asked for, and
    leaves the store as it was. *)
Theorem operations_on_none_strategy classes self h :
  Accelerator.strategy_of h self = Some VNone →
  Accelerator.setup_environment classes self h
  = Raised (AttributeError "NoneType" "setup_environment") h ∧
  (∀ trainer, Accelerator.setup classes self trainer h
   = Raised (AttributeError "NoneType" "setup") h) ∧
  Accelerator.model classes self h
  = Raised (AttributeError "NoneType" "model") h ∧
  (∀ new_model, Accelerator.model_setter classes self new_model h
   = Raised (AttributeError "NoneType" "model") h) ∧
  Accelerator.lightning_module classes self h
  = Raised (AttributeError "NoneType" "lightning_module") h ∧
  Accelerator.root_device classes self h
  = Raised (AttributeError "NoneType" "root_device") h ∧
  Accelerator.teardown classes self h
  = Raised (AttributeError "NoneType" "teardown") h.
Proof.
  intros Hs. apply load_slot in Hs.
  assert (Hb : ∀ (k : value → M value) r,
    k VNone h = r →
    (s <- load self "training_type_plugin" ;; k s) h = r).
  { intros k r <-. by apply bind_normal. }
  repeat split; intros; apply Hb;
    first [ apply getattr_none
          | apply bind_raised; first [apply call_method_none | apply setattr_none] ].
Qed.

(** X2.  On an object of the class whose [training_type_plugin] attribute
    was never assigned ([__init__] did not run), each delegating operation
    raises AttributeError naming the object's class and
    [training_type_plugin], before anything is asked of a strategy, and
    leaves the store as it was; [get_device_stats] still raises
    NotImplementedError. *)
Theorem operations_before_init classes self o h :
  h !! self = Some o →
  obj_dict o !! "training_type_plugin" = None →
  ∀ op,
    Accelerator.run_op classes self op h
    = match op with
      | Accelerator.GetDeviceStats _ => Raised NotImplementedError h
      | _ => Raised (AttributeError (obj_class o) "training_type_plugin") h
      end.
Proof.
  intros Ho Hd op.
  pose proof (load_missing self o "training_type_plugin" h Ho Hd) as Hl.
  destruct op; simpl; try reflexivity; by apply bind_raised.
Qed.

(** X3.  The failure paths of the constructor when a precision plugin is
    given.  If the strategy argument is no object (None, a string, an int)
    or its class makes [_precision_plugin] a property without a setter
    (and does not override [__setattr__]), the constructor raises
    AttributeError after the instance was made and no object that existed
    before is changed.  If the class makes it a property with a setter
    (and does not override [__setattr__]), the constructor's outcome is
    the setter's: the setter's exception and the store it left come out
    unchanged. *)
Theorem constructor_failure_paths classes p s h :
  p ≠ VNone →
  let h1 := <[Accelerator.new_self h := Accelerator.self_obj s]> h in
  (∀ l', is_Some (h !! l') → h1 !! l' = h !! l') ∧
  ((∀ l, s ≠ VRef l) →
   Accelerator.construct classes p s h
   = Raised (AttributeError (builtin_type_name s) "_precision_plugin") h1) ∧
  (∀ l o g, s = VRef l → h !! l = Some o →
     classes (obj_class o) !! "__setattr__" = None →
     classes (obj_class o) !! "_precision_plugin" = Some (Property g None) →
     Accelerator.construct classes p s h
     = Raised (AttributeError (obj_class o) "_precision_plugin") h1) ∧
  (∀ l o g f e h', s = VRef l → h !! l = Some o →
     classes (obj_class o) !! "__setattr__" = None →
     classes (obj_class o) !! "_precision_plugin" = Some (Property g (Some f)) →
     f l p h1 = Raised e h' →
     Accelerator.construct classes p s h = Raised e h').
Proof.
  intros Hp h1.
  assert (Hold : ∀ l' o', h !! l' = Some o' → h1 !! l' = Some o').
  { intros l' o' Ho'. unfold h1. rewrite lookup_insert_ne; [done|].
    intros E. by apply (allocated_not_fresh h l' o'). }
  split.
  { intros l' [o' Ho']. rewrite Ho'. by apply Hold. }
  split.
  { intros Hn. rewrite construct_with_precision_steps by done.
    destruct s as [|l| | |]; try reflexivity. by destruct (Hn l). }
  split.
  - intros l o g -> Ho Hsa Hc.
    rewrite construct_with_precision_steps by done. fold h1.
    rewrite (setattr_default classes l o) by (by apply Hold || done).
    unfold default_setattr. by rewrite Hc.
  - intros l o g f e h' -> Ho Hsa Hc Hf.
    rewrite construct_with_precision_steps by done. fold h1.
    rewrite (setattr_default classes l o) by (by apply Hold || done).
    unfold default_setattr. by rewrite Hc, Hf.
Qed.

(** *** The read accessors *)

Lemma forward_getattr classes self s name h :
  Accelerator.strategy_of h self = Some s →
  (s <- load self "training_type_plugin" ;; getattr classes s name) h
  = getattr classes s name h.
Proof.
  intros Hs. by rewrite (bind_normal _ _ h s h) by by apply load_slot.
Qed.

(** Without [__getattribute__], a failed lookup goes to [__getattr__]
    when the class has one. *)
Lemma getattr_fallback classes l o name hook tn a h :
  h !! l = Some o →
  classes (obj_class o) !! "__getattribute__" = None →
  classes (obj_class o) !! "__getattr__" = Some hook →
  default_getattribute classes l o name h = Raised (AttributeError tn a) h →
  getattr classes (VRef l) name h = special classes l hook [VStr name] h.
Proof. unfold getattr. by intros -> -> -> ->. Qed.

(** A lookup that finds something never reaches [__getattr__]. *)
Lemma getattr_found classes l o name x h :
  h !! l = Some o →
  classes (obj_class o) !! "__getattribute__" = None →
  default_getattribute classes l o name h = Normal x h →
  getattr classes (VRef l) name h = Normal x h.
Proof. unfold getattr. by intros -> -> ->. Qed.

Lemma default_getattribute_absent classes l o name h :
  classes (obj_class o) !! name = None →
  instance_entry classes o name = None →
  default_getattribute classes l o name h
  = Raised (AttributeError (obj_class o) name) h.
Proof. unfold default_getattribute. by intros -> ->. Qed.

Lemma getattr_absent classes l o name h :
  h !! l = Some o →
  classes (obj_class o) !! "__getattribute__" = None →
  classes (obj_class o) !! "__getattr__" = None →
  classes (obj_class o) !! name = None →
  instance_entry classes o name = None →
  getattr classes (VRef l) name h = Raised (AttributeError (obj_class o) name) h.
Proof.
  intros Ho Hg Hf Hc Hd. rewrite (getattr_default classes l o) by done.
  by apply default_getattribute_absent.
Qed.

(** X4.  [lightning_module], [root_device] and the getter of [model] read
    the attribute of that name of the strategy and nothing else.  For a
    strategy whose class does not override [__getattribute__] and whose
    instances have a dictionary: an entry of the dictionary is returned as
    it is unless the class makes the name a property, and a plain value
    kept on the class is returned when there is no entry, the store being
    left as it was in both cases.  Without [__getattr__] on the class, a
    property's getter decides the outcome, value or exception, and a
    strategy that has neither an entry nor a class member of that name
    gives AttributeError naming the strategy's class.  With a function
    [__getattr__] on the class, such a strategy gives what that function
    gives for the name. *)
Theorem read_accessors classes self l o h name (get : M value) :
  Accelerator.strategy_of h self = Some (VRef l) →
  h !! l = Some o →
  classes (obj_class o) !! "__getattribute__" = None →
  has_dict (classes (obj_class o)) = true →
  (name = "lightning_module" ∧ get = Accelerator.lightning_module classes self) ∨
  (name = "root_device" ∧ get = Accelerator.root_device classes self) ∨
  (name = "model" ∧ get = Accelerator.model classes self) →
  (∀ x, is_data_descriptor (classes (obj_class o)) name = false →
     obj_dict o !! name = Some x → get h = Normal x h) ∧
  (∀ x, classes (obj_class o) !! name = Some (ClassAttr x) →
     obj_dict o !! name = None → get h = Normal x h) ∧
  (classes (obj_class o) !! "__getattr__" = None →
     (∀ g st, classes (obj_class o) !! name = Some (Property g st) →
        get h = g l h) ∧
     (classes (obj_class o) !! name = None → obj_dict o !! name = None →
        get h = Raised (AttributeError (obj_class o) name) h)) ∧
  (∀ hook, classes (obj_class o) !! "__getattr__" = Some (Method hook) →
     classes (obj_class o) !! name = None → obj_dict o !! name = None →
     get h = hook l [VStr name] h).
Proof.
  intros Hs Ho Hg Hdict Hname.
  assert (Hget : get h = getattr classes (VRef l) name h).
  { destruct Hname as [[-> ->]|[[-> ->]|[-> ->]]]; by apply forward_getattr. }
  assert (Hentry : instance_entry classes o name = obj_dict o !! name).
  { unfold instance_entry. by rewrite Hdict. }
  rewrite Hget. split.
  { intros x Hd Hx. apply (getattr_found classes l o); [done|done|].
    unfold default_getattribute, is_data_descriptor in *. rewrite Hentry, Hx.
    by destruct (classes (obj_class o) !! name) as [[g st|body|g|y]|]. }
  split.
  { intros x Hc Hx. apply (getattr_found classes l o); [done|done|].
    unfold default_getattribute. by rewrite Hc, Hentry, Hx. }
  split.
  - intros Hf. split.
    + intros g st Hc. rewrite (getattr_default classes l o) by done.
      unfold default_getattribute. by rewrite Hc.
    + intros Hc Hx. apply getattr_absent; try done. by rewrite Hentry.
  - intros hook Hf Hc Hx.
    rewrite (getattr_fallback classes l o name (Method hook)
               (obj_class o) name h); try done.
    apply default_getattribute_absent; [done|by rewrite Hentry].
Qed.

(** *** The setter of [model] *)

Lemma model_setter_plain classes self l o X h :
  Accelerator.strategy_of h self = Some (VRef l) →
  h !! l = Some o →
  default_protocol (classes (obj_class o)) = true →
  is_data_descriptor (classes (obj_class o)) "model" = false →
  Accelerator.model_setter classes self X h
  = Normal VNone (set_slot l o "model" X h).
Proof.
  intros Hs Ho Hdp Hd. unfold Accelerator.model_setter.
  rewrite (bind_normal _ _ h (VRef l) h) by by apply load_slot.
  rewrite bind_discard. by rewrite (setattr_plain classes l o).
Qed.

Lemma set_slot_twice l o name X Y h :
  set_slot l (Obj (obj_class o) (<[name := X]> (obj_dict o))) name Y
    (set_slot l o name X h)
  = set_slot l o name Y h.
Proof.
  unfold set_slot. simpl. by rewrite insert_insert_eq, insert_insert_eq.
Qed.

(** X5.  For a strategy that keeps [model] in its dictionary (its class
    leaves the attribute protocol to [object] and has no property of that
    name), the setter changes that one entry: every other entry of the strategy keeps its
    value (the precision plugin among them).  Setting [Y] after [X] leaves
    the store that setting [Y] alone leaves, and setting the model that is
    already there changes nothing. *)
Theorem model_setter_writes_one_entry classes self l o X Y h :
  Accelerator.strategy_of h self = Some (VRef l) →
  h !! l = Some o →
  default_protocol (classes (obj_class o)) = true →
  is_data_descriptor (classes (obj_class o)) "model" = false →
  let hX := heap_of (Accelerator.model_setter classes self X h) in
  (∀ name, name ≠ "model" → slot hX l name = slot h l name) ∧
  slot hX l "_precision_plugin" = slot h l "_precision_plugin" ∧
  Accelerator.model_setter classes self Y hX
  = Accelerator.model_setter classes self Y h ∧
  (slot h l "model" = Some X → hX = h).
Proof.
  intros Hs Ho Hdp Hd hX.
  assert (EX : hX = set_slot l o "model" X h).
  { unfold hX. by rewrite (model_setter_plain classes self l o). }
  assert (Hframe : ∀ name, name ≠ "model" → slot hX l name = slot h l name).
  { intros name Hn. rewrite EX.
    apply slot_set_slot_ne; [done|right; congruence]. }
  split; [exact Hframe|]. split; [by apply Hframe|]. split.
  - rewrite (model_setter_plain classes self l o Y h) by done.
    rewrite EX.
    rewrite (model_setter_plain classes self l
               (Obj (obj_class o) (<["model" := X]> (obj_dict o)))).
    + by rewrite set_slot_twice.
    + unfold Accelerator.strategy_of.
      rewrite slot_set_slot_ne; [done|done|right; congruence].
    + unfold set_slot. apply lookup_insert_eq.
    + done.
    + done.
  - intros Hm. rewrite EX. unfold set_slot, slot in *.
    rewrite Ho in Hm. simpl in Hm.
    rewrite (insert_id (obj_dict o) "model" X Hm).
    destruct o as [c d]. simpl. by apply insert_id.
Qed.

(** *** Several instances over one strategy *)

(** X6.  The strategy is shared, not copied.  Two instances constructed
    one after the other over the same strategy (whose class leaves the
    attribute protocol to [object] and has no property called
    [_precision_plugin] or [model]), each with a precision plugin, are different objects holding that strategy; the strategy ends
    with the second plugin; and a model set through the first instance is
    the model read through the second. *)
Theorem strategy_shared_between_instances classes p1 p2 l o X h :
  p1 ≠ VNone → p2 ≠ VNone →
  h !! l = Some o →
  default_protocol (classes (obj_class o)) = true →
  is_data_descriptor (classes (obj_class o)) "_precision_plugin" = false →
  is_data_descriptor (classes (obj_class o)) "model" = false →
  ∃ a b h1 h2 h3,
    Accelerator.construct classes p1 (VRef l) h = Normal (VRef a) h1 ∧
    Accelerator.construct classes p2 (VRef l) h1 = Normal (VRef b) h2 ∧
    a ≠ b ∧
    Accelerator.strategy_of h2 a = Some (VRef l) ∧
    Accelerator.strategy_of h2 b = Some (VRef l) ∧
    slot h2 l "_precision_plugin" = Some p2 ∧
    Accelerator.model_setter classes a X h2 = Normal VNone h3 ∧
    Accelerator.model classes b h3 = Normal X h3.
Proof.
  intros Hp1 Hp2 Ho Hdp Hd Hm.
  set (a := Accelerator.new_self h).
  set (h1 := set_slot l o "_precision_plugin" p1
               (<[a := Accelerator.self_obj (VRef l)]> h)).
  set (o1 := Obj (obj_class o) (<["_precision_plugin" := p1]> (obj_dict o))).
  set (b := Accelerator.new_self h1).
  set (h2 := set_slot l o1 "_precision_plugin" p2
               (<[b := Accelerator.self_obj (VRef l)]> h1)).
  set (o2 := Obj (obj_class o) (<["_precision_plugin" := p2]> (obj_dict o1))).
  assert (Hal : a ≠ l).
  { intros E. by apply (allocated_not_fresh h l o). }
  assert (Ho1 : h1 !! l = Some o1).
  { unfold h1, set_slot. apply lookup_insert_eq. }
  assert (Ha1 : h1 !! a = Some (Accelerator.self_obj (VRef l))).
  { unfold h1, set_slot. rewrite lookup_insert_ne by done.
    apply lookup_insert_eq. }
  assert (Hbl : b ≠ l).
  { intros E. by apply (allocated_not_fresh h1 l o1). }
  assert (Hba : a ≠ b).
  { intros E. symmetry in E.
    by apply (allocated_not_fresh h1 a (Accelerator.self_obj (VRef l))). }
  assert (Ho2 : h2 !! l = Some o2).
  { unfold h2, set_slot. apply lookup_insert_eq. }
  assert (Ha2 : Accelerator.strategy_of h2 a = Some (VRef l)).
  { unfold Accelerator.strategy_of, slot, h2, set_slot.
    rewrite lookup_insert_ne by done. rewrite lookup_insert_ne by done.
    rewrite Ha1. simpl. apply lookup_insert_eq. }
  assert (Hb2 : Accelerator.strategy_of h2 b = Some (VRef l)).
  { unfold Accelerator.strategy_of, slot, h2, set_slot.
    rewrite lookup_insert_ne by done. rewrite lookup_insert_eq.
    simpl. apply lookup_insert_eq. }
  exists a, b, h1, h2, (set_slot l o2 "model" X h2).
  split; [by apply construct_with_precision|].
  split; [by apply (construct_with_precision classes p2 l o1 h1)|].
  split; [exact Hba|]. split; [exact Ha2|]. split; [exact Hb2|].
  split; [apply slot_set_slot_eq|].
  split; [by apply model_setter_plain|].
  unfold Accelerator.model. rewrite forward_getattr with (s := VRef l).
  - eapply getattr_plain.
    + unfold set_slot. apply lookup_insert_eq.
    + done.
    + done.
    + simpl. apply lookup_insert_eq.
  - unfold Accelerator.strategy_of.
    rewrite slot_set_slot_ne; [exact Hb2|exact Ho2|right; congruence].
Qed.

(** *** The instance itself is never written *)

Section Stateless.

Variable classes : string → namespace.
Variable self : loc.
Variable o : object.
Hypothesis Hlocal : Client.collaborators_local classes.
Hypothesis Hcls : classes (obj_class o) = ∅.

Lemma heap_of_discard {A} (r : outcome A) : heap_of (discard r) = heap_of r.
Proof. by destruct r. Qed.

(** Whatever is called: the class of [self] has no member in [classes], so
    a call on [self] or on a method bound to it is refused, and any other
    function writes its own object only. *)
Lemma call_leaves f args h :
  h !! self = Some o →
  heap_of (call classes f args h) !! self = Some o.
Proof.
  intros Hself. destruct f as [|l| | |l m]; try done.
  - unfold call. destruct (h !! l) as [o'|] eqn:Ho'; [|done].
    destruct (classes (obj_class o') !! "__call__") as [[g st|body|g|x]|] eqn:Hc;
      try done.
    destruct (decide (self = l)) as [->|Hl].
    + assert (o' = o) as -> by congruence.
      by rewrite Hcls, lookup_empty in Hc.
    + rewrite (Hlocal _ _ _ Hc l args h self); [done|done|by eexists].
  - unfold call. destruct (h !! l) as [o'|] eqn:Ho'; [|done].
    destruct (classes (obj_class o') !! m) as [[g st|body|g|x]|] eqn:Hc;
      try done.
    destruct (decide (self = l)) as [->|Hl].
    + assert (o' = o) as -> by congruence.
      by rewrite Hcls, lookup_empty in Hc.
    + rewrite (Hlocal _ _ _ Hc l args h self); [done|done|by eexists].
Qed.

Lemma bind_call_leaves (g : M value) args h :
  heap_of (g h) !! self = Some o →
  heap_of ((f <- g ;; call classes f args) h) !! self = Some o.
Proof.
  intros Hg. unfold bind. destruct (g h) as [f h'|e h']; [|done].
  by apply call_leaves.
Qed.

(** A hook of the class of another object. *)
Lemma special_leaves c name l hook args h :
  classes c !! name = Some hook →
  self ≠ l →
  h !! self = Some o →
  heap_of (special classes l hook args h) !! self = Some o.
Proof.
  intros Hc Hl Hself. pose proof (Hlocal _ _ _ Hc) as Hm.
  destruct hook as [g st|body|g|x]; simpl in *.
  - destruct Hm as [Hg _]. apply bind_call_leaves.
    rewrite (Hg l h self); [done|done|by eexists].
  - rewrite (Hm l args h self); [done|done|by eexists].
  - apply bind_call_leaves.
    rewrite (Hm l h self); [done|done|by eexists].
  - by apply call_leaves.
Qed.

Lemma default_getattribute_leaves l o' name h :
  self ≠ l →
  h !! self = Some o →
  heap_of (default_getattribute classes l o' name h) !! self = Some o.
Proof.
  intros Hl Hself. unfold default_getattribute.
  destruct (classes (obj_class o') !! name) as [[g st|body|g|x]|] eqn:Hc.
  - destruct (Hlocal _ _ _ Hc) as [Hg _].
    rewrite (Hg l h self); [done|done|by eexists].
  - by destruct (instance_entry classes o' name).
  - destruct (instance_entry classes o' name); [done|].
    rewrite (Hlocal _ _ _ Hc l h self); [done|done|by eexists].
  - by destruct (instance_entry classes o' name).
  - by destruct (instance_entry classes o' name).
Qed.

Lemma getattr_leaves v name h :
  h !! self = Some o → v ≠ VRef self →
  heap_of (getattr classes v name h) !! self = Some o.
Proof.
  intros Hself Hv. destruct v as [|l| | |]; try done.
  assert (Hl : self ≠ l) by congruence.
  unfold getattr. destruct (h !! l) as [o'|] eqn:Ho'; [|done].
  set (first := match classes (obj_class o') !! "__getattribute__" with
                | Some hook => special classes l hook [VStr name] h
                | None => default_getattribute classes l o' name h
                end).
  assert (Hfirst : heap_of first !! self = Some o).
  { unfold first.
    destruct (classes (obj_class o') !! "__getattribute__") as [hook|] eqn:Hg.
    - by apply (special_leaves _ _ _ _ _ _ Hg).
    - by apply default_getattribute_leaves. }
  destruct first as [x h'|e h']; [done|].
  destruct (classes (obj_class o') !! "__getattr__") as [hook|] eqn:Hf; [|done].
  destruct (is_attribute_error e); [|done].
  by apply (special_leaves _ _ _ _ _ _ Hf).
Qed.

Lemma heap_of_void {A} (r : outcome A) : heap_of (void r) = heap_of r.
Proof. by destruct r. Qed.

Lemma setattr_leaves v name x h :
  h !! self = Some o → v ≠ VRef self →
  heap_of (setattr classes v name x h) !! self = Some o.
Proof.
  intros Hself Hv. destruct v as [|l| | |]; try done.
  assert (Hl : self ≠ l) by congruence.
  unfold setattr. destruct (h !! l) as [o'|] eqn:Ho'; [|done].
  destruct (classes (obj_class o') !! "__setattr__") as [hook|] eqn:Hs.
  { rewrite heap_of_void. by apply (special_leaves _ _ _ _ _ _ Hs). }
  unfold default_setattr.
  destruct (classes (obj_class o') !! name) as [[g [st|]|body|g|y]|] eqn:Hc;
    try (destruct (has_dict (classes (obj_class o'))); [|done]; simpl;
         unfold set_slot; by rewrite lookup_insert_ne).
  - destruct (Hlocal _ _ _ Hc) as [_ Hst].
    rewrite (Hst l x h self); [done|done|by eexists].
  - done.
Qed.

Lemma call_method_leaves v name args h :
  h !! self = Some o → v ≠ VRef self →
  heap_of (call_method classes v name args h) !! self = Some o.
Proof.
  intros Hself Hv. unfold call_method, bind.
  pose proof (getattr_leaves v name h Hself Hv) as Hg.
  destruct (getattr classes v name h) as [f h'|e h']; simpl in Hg; [|done].
  by apply call_leaves.
Qed.

Lemma run_op_leaves s op h :
  h !! self = Some o →
  obj_dict o !! "training_type_plugin" = Some s →
  s ≠ VRef self →
  heap_of (Accelerator.run_op classes self op h) !! self = Some o.
Proof.
  intros Hself Hs Hne.
  assert (Hl : load self "training_type_plugin" h = Normal s h).
  { apply load_slot. unfold slot. by rewrite Hself. }
  destruct op; simpl;
    unfold Accelerator.setup_environment, Accelerator.setup, Accelerator.model,
      Accelerator.model_setter, Accelerator.lightning_module,
      Accelerator.root_device, Accelerator.teardown,
      Accelerator.get_device_stats;
    try (rewrite (bind_normal _ _ h s h Hl));
    try rewrite bind_discard, heap_of_discard;
    first [ by apply call_method_leaves
          | by apply getattr_leaves
          | by apply setattr_leaves
          | done ].
Qed.

Lemma run_ops_leaves s os h :
  h !! self = Some o →
  obj_dict o !! "training_type_plugin" = Some s →
  s ≠ VRef self →
  Accelerator.run_ops classes self os h !! self = Some o.
Proof.
  intros Hself Hs Hne. revert h Hself.
  induction os as [|op os IH]; intros h Hself; simpl; [done|].
  apply IH. by apply (run_op_leaves s).
Qed.

End Stateless.

(** X7.  The class keeps no state besides the reference.  When the code of
    the collaborators writes only the object it is invoked on, and the
    instance holds some other object (or no object) as its strategy, then
    after any sequence of operations, returning or raising, the instance
    is exactly the object it was: no operation adds, changes or removes an
    attribute of the instance. *)
Theorem instance_never_written classes self o s h os :
  Client.collaborators_local classes →
  classes (obj_class o) = ∅ →
  h !! self = Some o →
  obj_dict o !! "training_type_plugin" = Some s →
  s ≠ VRef self →
  Accelerator.run_ops classes self os h !! self = Some o ∧
  Accelerator.strategy_of (Accelerator.run_ops classes self os h) self = Some s.
Proof.
  intros Hlocal Hcls Hself Hs Hne.
  assert (H : Accelerator.run_ops classes self os h !! self = Some o).
  { by apply (run_ops_leaves classes self o Hlocal Hcls s). }
  split; [exact H|].
  unfold Accelerator.strategy_of, slot. by rewrite H.
Qed.

(** *** Attribute syntax on an instance *)

Lemma members_model classes :
  Client.members classes !! "model"
  = Some (Property (Accelerator.model classes)
            (Some (λ self new_model,
                     Accelerator.model_setter classes self new_model ;; ret ()))).
Proof. reflexivity. Qed.

Lemma members_lightning_module classes :
  Client.members classes !! "lightning_module"
  = Some (Property (Accelerator.lightning_module classes) None).
Proof. reflexivity. Qed.

Lemma members_root_device classes :
  Client.members classes !! "root_device"
  = Some (Property (Accelerator.root_device classes) None).
Proof. reflexivity. Qed.

(** At any depth the class makes [model] a property. *)
Lemma table_model_is_property classes depth :
  is_data_descriptor (Client.table classes depth "Accelerator") "model" = true.
Proof. by destruct depth. Qed.

(** X8.  What the decorators of the class give to code that uses an
    instance.  [lightning_module] and [root_device] are read-only:
    assigning either raises AttributeError and changes nothing.  [model]
    is a property with a setter: over a strategy that keeps [model] in its
    dictionary (its class leaves the attribute protocol to [object] and
    has no property of that name), [instance.model = X] writes the
    strategy's entry and not the instance, and [instance.model] then reads
    [X], also when the instance's own dictionary has an entry called
    [model]. *)
Theorem attribute_syntax classes depth a o l o' X h :
  h !! a = Some o →
  obj_class o = "Accelerator" →
  obj_dict o !! "training_type_plugin" = Some (VRef l) →
  h !! l = Some o' →
  default_protocol (Client.table classes depth (obj_class o')) = true →
  is_data_descriptor (Client.table classes depth (obj_class o')) "model" = false →
  let T := Client.table classes (S depth) in
  let h' := set_slot l o' "model" X h in
  (∀ x, setattr T (VRef a) "root_device" x h
        = Raised (AttributeError "Accelerator" "root_device") h) ∧
  (∀ x, setattr T (VRef a) "lightning_module" x h
        = Raised (AttributeError "Accelerator" "lightning_module") h) ∧
  setattr T (VRef a) "model" X h = Normal () h' ∧
  h' !! a = Some o ∧
  getattr T (VRef a) "model" h' = Normal X h'.
Proof.
  intros Ha Hc Hs Hl Hdp Hd T h'.
  set (inner := Client.table classes depth) in *.
  assert (Hc' : obj_class o' ≠ "Accelerator").
  { intros E. rewrite E in Hd. unfold inner in Hd.
    by rewrite table_model_is_property in Hd. }
  assert (Hal : l ≠ a).
  { intros ->. rewrite Ha in Hl. injection Hl as ->. by apply Hc'. }
  assert (Hstrat : Accelerator.strategy_of h a = Some (VRef l)).
  { unfold Accelerator.strategy_of, slot. by rewrite Ha. }
  assert (Ha' : h' !! a = Some o).
  { unfold h', set_slot. by rewrite lookup_insert_ne. }
  assert (HT : T (obj_class o) = Client.members inner).
  { rewrite Hc. apply table_accelerator. }
  destruct (default_protocol_spec _ (members_default_protocol inner))
    as (Hg & Hf & Hsa & Hdict).
  assert (Hdef : ∀ name x, setattr T (VRef a) name x h
                           = default_setattr T a o name x h).
  { intros name x. apply setattr_default; [done|by rewrite HT]. }
  split.
  { intros x. rewrite Hdef. unfold default_setattr.
    by rewrite HT, members_root_device, Hc. }
  split.
  { intros x. rewrite Hdef. unfold default_setattr.
    by rewrite HT, members_lightning_module, Hc. }
  split.
  { rewrite Hdef. unfold default_setattr. rewrite HT, members_model.
    unfold bind. by rewrite (model_setter_plain inner a l o'). }
  split; [exact Ha'|].
  rewrite (getattr_default T a o); [|done|by rewrite HT|by rewrite HT].
  unfold default_getattribute. rewrite HT, members_model.
  unfold Accelerator.model. rewrite forward_getattr with (s := VRef l).
  - eapply getattr_plain.
    + unfold h', set_slot. apply lookup_insert_eq.
    + done.
    + done.
    + simpl. apply lookup_insert_eq.
  - unfold Accelerator.strategy_of, slot. by rewrite Ha'.
Qed.

(** *** A strategy that lacks a life-cycle method *)

(** X9.  For a strategy whose class does not override
    [__getattribute__], has no member called [setup_environment], [setup]
    or [teardown], and whose instances have a dictionary.  If the
    dictionary has no such entry and the class has no [__getattr__], the
    operation of that name raises AttributeError naming the strategy's
    class and the method, and the store is left as it was.  If the
    dictionary has the entry and it is None, the operation raises
    TypeError and the store is left as it was.  If the class has a
    function [__getattr__], the operation calls what that function gives
    for the name; when it gives a string, the operation raises TypeError
    in the store the function left. *)
Theorem lifecycle_method_missing classes self l o h name args (run : M value) :
  Accelerator.strategy_of h self = Some (VRef l) →
  h !! l = Some o →
  classes (obj_class o) !! "__getattribute__" = None →
  has_dict (classes (obj_class o)) = true →
  classes (obj_class o) !! name = None →
  (name = "setup_environment" ∧ args = [] ∧
   run = Accelerator.setup_environment classes self) ∨
  (∃ trainer, name = "setup" ∧ args = [trainer] ∧
   run = Accelerator.setup classes self trainer) ∨
  (name = "teardown" ∧ args = [] ∧ run = Accelerator.teardown classes self) →
  (obj_dict o !! name = None →
   classes (obj_class o) !! "__getattr__" = None →
     run h = Raised (AttributeError (obj_class o) name) h) ∧
  (obj_dict o !! name = Some VNone →
     run h = Raised (TypeError "not callable") h) ∧
  (∀ hook, obj_dict o !! name = None →
     classes (obj_class o) !! "__getattr__" = Some (Method hook) →
     run h = discard ((f <- hook l [VStr name] ;; call classes f args) h) ∧
     (∀ x h', hook l [VStr name] h = Normal (VStr x) h' →
        run h = Raised (TypeError "not callable") h')).
Proof.
  intros Hs Ho Hg Hdict Hc Hname.
  assert (Hrun : run h = discard (call_method classes (VRef l) name args h)).
  { destruct Hname as [(-> & -> & ->)|[(trainer & -> & -> & ->)|(-> & -> & ->)]];
      by apply forward_call. }
  assert (Hentry : instance_entry classes o name = obj_dict o !! name).
  { unfold instance_entry. by rewrite Hdict. }
  rewrite Hrun. unfold call_method. split; [|split].
  - intros Hd Hf.
    rewrite (bind_raised _ _ h (AttributeError (obj_class o) name) h); [done|].
    apply getattr_absent; try done. by rewrite Hentry.
  - intros Hd.
    rewrite (bind_normal _ _ h VNone h); [done|].
    apply (getattr_found classes l o); [done|done|].
    unfold default_getattribute. by rewrite Hc, Hentry, Hd.
  - intros hook Hd Hf.
    assert (Hget : getattr classes (VRef l) name h = hook l [VStr name] h).
    { rewrite (getattr_fallback classes l o name (Method hook)
                 (obj_class o) name h); try done.
      apply default_getattribute_absent; [done|by rewrite Hentry]. }
    assert (Hbind : (f <- getattr classes (VRef l) name ;; call classes f args) h
                    = (f <- hook l [VStr name] ;; call classes f args) h).
    { unfold bind. by rewrite Hget. }
    rewrite Hbind. split; [done|].
    intros x h' Hx. by rewrite (bind_normal _ _ h (VStr x) h').
Qed.

(** ** The further properties at the test doubles *)

Lemma local_store l name x : Client.local_to l (store l name x).
Proof.
  intros h l' Hl' _. unfold store. destruct (h !! l) as [o|]; [|done].
  simpl. unfold set_slot. by rewrite lookup_insert_ne.
Qed.

Lemma local_load l l0 name : Client.local_to l (load l0 name).
Proof.
  intros h l' _ _. unfold load. destruct (h !! l0) as [o|]; [|done].
  by destruct (obj_dict o !! name).
Qed.

Lemma local_ret {A} l (a : A) : Client.local_to l (ret a).
Proof. by intros h l' _ _. Qed.

Lemma local_raise {A} l e : Client.local_to l (raise (A:=A) e).
Proof. by intros h l' _ _. Qed.

Lemma local_bind {A B} l (m : M A) (k : A → M B) :
  Client.local_to l m → (∀ a, Client.local_to l (k a)) →
  Client.local_to l (bind m k).
Proof.
  intros Hm Hk h l' Hl' Hsome. unfold bind.
  specialize (Hm h l' Hl' Hsome).
  destruct (m h) as [a h1|e h1]; simpl in *; [|done].
  rewrite <- Hm. apply Hk; [done|]. by rewrite Hm.
Qed.

(** Every member of the fake classes writes only its own object. *)
Lemma fake_collaborators_local : Client.collaborators_local Fake.classes.
Proof.
  intros c name mb. unfold Fake.classes.
  destruct (decide (c = "FakeStrategy")) as [_|_];
    [|destruct (decide (c = "FailingStrategy")) as [_|_];
      [|destruct (decide (c = "WrappingStrategy")) as [_|_]]].
  - unfold Fake.strategy_ns. intros H.
    repeat (apply lookup_insert_Some in H; destruct H as [[<- <-]|[_ H]]);
      try (by rewrite lookup_empty in H); simpl;
      repeat split; try intros l args; try destruct args as [|t [|t' args]];
      repeat first
        [ apply local_store
        | apply local_load
        | apply local_ret
        | apply local_raise
        | apply local_bind; [|intros ?] ].
  - unfold Fake.failing_ns. intros H.
    repeat (apply lookup_insert_Some in H; destruct H as [[<- <-]|[_ H]]);
      try (by rewrite lookup_empty in H); simpl;
      intros l args;
      repeat first
        [ apply local_store
        | apply local_raise
        | apply local_bind; [|intros ?] ].
  - unfold Fake.wrapping_ns. intros H.
    apply lookup_insert_Some in H. destruct H as [[<- <-]|[_ H]];
      [|by rewrite lookup_empty in H].
    split; [intros l; apply local_load|].
    intros l x. apply local_store.
  - by rewrite lookup_empty.
Qed.

(** X1 at an instance holding None: [setup] with a trainer. *)
Lemma operations_on_none_strategy_witness :
  Accelerator.strategy_of Doubles.h_bare 8 = Some VNone ∧
  Accelerator.setup Fake.classes 8 (VRef 6) Doubles.h_bare
  = Raised (AttributeError "NoneType" "setup") Doubles.h_bare.
Proof.
  assert (Hs : Accelerator.strategy_of Doubles.h_bare 8 = Some VNone)
    by reflexivity.
  destruct (operations_on_none_strategy Fake.classes 8 Doubles.h_bare Hs)
    as (_ & H & _).
  split; [exact Hs|apply H].
Defined.

(** X2 at an object on which [__init__] has not run: [teardown]. *)
Lemma operations_before_init_witness :
  Doubles.h_bare !! 9%positive = Some (Obj "Accelerator" ∅) ∧
  Accelerator.teardown Fake.classes 9 Doubles.h_bare
  = Raised (AttributeError "Accelerator" "training_type_plugin") Doubles.h_bare.
Proof.
  assert (Ho : Doubles.h_bare !! 9%positive = Some (Obj "Accelerator" ∅))
    by reflexivity.
  split; [exact Ho|].
  exact (operations_before_init Fake.classes 9 (Obj "Accelerator" ∅)
           Doubles.h_bare Ho eq_refl Accelerator.Teardown).
Defined.

(** X3 at the frozen strategy (the assignment is refused) and at the
    guarded one (its setter's ValueError comes out, with what the setter
    wrote before raising). *)
Lemma constructor_failure_paths_witness :
  Accelerator.construct Doubles.classes (VRef 4) (VRef 1) Doubles.h0
  = Raised (AttributeError "FrozenStrategy" "_precision_plugin")
      (<[5%positive := Accelerator.self_obj (VRef 1)]> Doubles.h0) ∧
  Accelerator.construct Doubles.classes (VRef 4) (VRef 2) Doubles.h0
  = Raised (UserError "ValueError" (VRef 4))
      (<[2%positive := Obj "GuardedStrategy" (<["_attempted" := VRef 4]> ∅)]>
         (<[5%positive := Accelerator.self_obj (VRef 2)]> Doubles.h0)).
Proof.
  assert (Hp : VRef 4 ≠ VNone) by discriminate.
  split.
  - destruct (constructor_failure_paths Doubles.classes (VRef 4) (VRef 1)
                Doubles.h0 Hp) as (_ & _ & H & _).
    apply (H 1%positive (Obj "FrozenStrategy" (<["_precision" := VRef 3]> ∅))
             (λ l, load l "_precision")); reflexivity.
  - destruct (constructor_failure_paths Doubles.classes (VRef 4) (VRef 2)
                Doubles.h0 Hp) as (_ & _ & _ & H).
    apply (H 2%positive (Obj "GuardedStrategy" ∅) (λ l, load l "_precision")
             (λ l x, store l "_attempted" x ;; raise (UserError "ValueError" x)));
      reflexivity.
Defined.

(** X4 at the fake strategy, whose [root_device] is a property and whose
    [model] is an entry, and at the dynamic strategy, whose [__getattr__]
    answers. *)
Lemma read_accessors_witness :
  Accelerator.strategy_of Fake.h1 8 = Some (VRef 1) ∧
  Accelerator.root_device Fake.classes 8 Fake.h1 = Normal (VStr "cpu") Fake.h1 ∧
  Accelerator.model Fake.classes 8 Fake.h1 = Normal (VRef 2) Fake.h1 ∧
  Accelerator.strategy_of Doubles.h_dyn 8 = Some (VRef 1) ∧
  Accelerator.root_device Doubles.classes 8 Doubles.h_dyn
  = Normal (VStr "dyn") Doubles.h_dyn.
Proof.
  assert (Hs : Accelerator.strategy_of Fake.h1 8 = Some (VRef 1))
    by reflexivity.
  assert (Ho : Fake.h1 !! 1%positive = Some Fake.strategy_obj) by reflexivity.
  assert (Hs' : Accelerator.strategy_of Doubles.h_dyn 8 = Some (VRef 1))
    by reflexivity.
  assert (Ho' : Doubles.h_dyn !! 1%positive = Some (Obj "DynamicStrategy" ∅))
    by reflexivity.
  split; [exact Hs|]. split; [|split; [|split; [exact Hs'|]]].
  - destruct (read_accessors Fake.classes 8 1 Fake.strategy_obj Fake.h1
                "root_device" (Accelerator.root_device Fake.classes 8) Hs Ho
                eq_refl eq_refl)
      as (_ & _ & H & _); [right; left; by split|].
    destruct (H eq_refl) as [Hprop _].
    apply (Hprop (λ _, ret (VStr "cpu")) None). reflexivity.
  - destruct (read_accessors Fake.classes 8 1 Fake.strategy_obj Fake.h1
                "model" (Accelerator.model Fake.classes 8) Hs Ho
                eq_refl eq_refl)
      as (H & _); [right; right; by split|].
    by apply H.
  - destruct (read_accessors Doubles.classes 8 1 (Obj "DynamicStrategy" ∅)
                Doubles.h_dyn "root_device"
                (Accelerator.root_device Doubles.classes 8) Hs' Ho'
                eq_refl eq_refl)
      as (_ & _ & _ & H); [right; left; by split|].
    apply (H (λ _ _, ret (VStr "dyn"))); reflexivity.
Defined.

(** X5 at the fake strategy: B (5) then A (2), and the plugin stays 3. *)
Lemma model_setter_writes_one_entry_witness :
  Accelerator.strategy_of Fake.h1 8 = Some (VRef 1) ∧
  slot (heap_of (Accelerator.model_setter Fake.classes 8 (VRef 5) Fake.h1))
       1 "_precision_plugin" = Some (VRef 3) ∧
  heap_of (Accelerator.model_setter Fake.classes 8 (VRef 2)
             (heap_of (Accelerator.model_setter Fake.classes 8 (VRef 5) Fake.h1)))
  = Fake.h1.
Proof.
  assert (Hs : Accelerator.strategy_of Fake.h1 8 = Some (VRef 1))
    by reflexivity.
  assert (Ho : Fake.h1 !! 1%positive = Some Fake.strategy_obj) by reflexivity.
  destruct (model_setter_writes_one_entry Fake.classes 8 1 Fake.strategy_obj
              (VRef 5) (VRef 2) Fake.h1 Hs Ho eq_refl eq_refl)
    as (_ & Hp & Hyx & _).
  destruct (model_setter_writes_one_entry Fake.classes 8 1 Fake.strategy_obj
              (VRef 2) (VRef 2) Fake.h1 Hs Ho eq_refl eq_refl)
    as (_ & _ & _ & Hid).
  split; [exact Hs|]. split.
  - rewrite Hp. reflexivity.
  - rewrite Hyx. apply Hid. reflexivity.
Defined.

(** X6 at the fake strategy: instances 8 and 9, plugins 3 then 4, model B. *)
Lemma strategy_shared_between_instances_witness :
  ∃ a b h1 h2 h3,
    Accelerator.construct Fake.classes (VRef 3) (VRef 1) Fake.h0
    = Normal (VRef a) h1 ∧
    Accelerator.construct Fake.classes (VRef 4) (VRef 1) h1
    = Normal (VRef b) h2 ∧
    a ≠ b ∧
    Accelerator.strategy_of h2 a = Some (VRef 1) ∧
    Accelerator.strategy_of h2 b = Some (VRef 1) ∧
    slot h2 1 "_precision_plugin" = Some (VRef 4) ∧
    Accelerator.model_setter Fake.classes a (VRef 5) h2 = Normal VNone h3 ∧
    Accelerator.model Fake.classes b h3 = Normal (VRef 5) h3.
Proof.
  apply (strategy_shared_between_instances Fake.classes (VRef 3) (VRef 4) 1
           Fake.strategy_obj (VRef 5) Fake.h0);
    first [discriminate | reflexivity].
Defined.

(** X7 at the fake strategy: after every operation once, instance 8 is the
    object the constructor left. *)
Lemma instance_never_written_witness :
  Fake.h1 !! 8%positive = Some (Accelerator.self_obj (VRef 1)) ∧
  Accelerator.run_ops Fake.classes 8
    [Accelerator.SetupEnvironment; Accelerator.Setup (VRef 6);
     Accelerator.SetModel (VRef 5); Accelerator.GetModel;
     Accelerator.GetLightningModule; Accelerator.GetRootDevice;
     Accelerator.GetDeviceStats (VStr "cpu"); Accelerator.Teardown]
    Fake.h1 !! 8%positive
  = Some (Accelerator.self_obj (VRef 1)).
Proof.
  assert (Ho : Fake.h1 !! 8%positive = Some (Accelerator.self_obj (VRef 1)))
    by reflexivity.
  split; [exact Ho|].
  apply (instance_never_written Fake.classes 8 (Accelerator.self_obj (VRef 1))
           (VRef 1) Fake.h1 _ fake_collaborators_local eq_refl Ho eq_refl).
  discriminate.
Defined.

(** X8 at an instance whose own dictionary has a stray [model] entry. *)
Lemma attribute_syntax_witness :
  setattr (Client.table Fake.classes 1) (VRef 8) "root_device" (VStr "cuda:0")
    Doubles.h_stray
  = Raised (AttributeError "Accelerator" "root_device") Doubles.h_stray ∧
  getattr (Client.table Fake.classes 1) (VRef 8) "model"
    (heap_of (setattr (Client.table Fake.classes 1) (VRef 8) "model" (VRef 5)
                Doubles.h_stray))
  = Normal (VRef 5) (set_slot 1 Fake.strategy_obj "model" (VRef 5) Doubles.h_stray).
Proof.
  destruct (attribute_syntax Fake.classes 0 8
              (Obj "Accelerator"
                 (<["model" := VRef 6]> (<["training_type_plugin" := VRef 1]> ∅)))
              1 Fake.strategy_obj (VRef 5) Doubles.h_stray
              eq_refl eq_refl eq_refl eq_refl eq_refl eq_refl)
    as (Hro & _ & Hset & _ & Hget).
  split; [apply Hro|]. rewrite Hset. exact Hget.
Defined.

(** X9 at an instance whose strategy is a bare object (the model, 2), and
    at the dynamic strategy, whose [__getattr__] gives a string. *)
Lemma lifecycle_method_missing_witness :
  Accelerator.teardown Fake.classes 8
    (<[8%positive := Accelerator.self_obj (VRef 2)]> Fake.h0)
  = Raised (AttributeError "Module" "teardown")
      (<[8%positive := Accelerator.self_obj (VRef 2)]> Fake.h0) ∧
  Accelerator.teardown Doubles.classes 8 Doubles.h_dyn
  = Raised (TypeError "not callable") Doubles.h_dyn.
Proof.
  split.
  - destruct (lifecycle_method_missing Fake.classes 8 2 (Obj "Module" ∅)
                (<[8%positive := Accelerator.self_obj (VRef 2)]> Fake.h0)
                "teardown" [] (Accelerator.teardown Fake.classes 8))
      as [H _]; [reflexivity|reflexivity|reflexivity|reflexivity|reflexivity
                |right; right; by repeat split|].
    by apply H.
  - destruct (lifecycle_method_missing Doubles.classes 8 1
                (Obj "DynamicStrategy" ∅) Doubles.h_dyn
                "teardown" [] (Accelerator.teardown Doubles.classes 8))
      as (_ & _ & H); [reflexivity|reflexivity|reflexivity|reflexivity
                      |reflexivity|right; right; by repeat split|].
    destruct (H (λ _ _, ret (VStr "dyn"))) as [_ Hstr];
      [reflexivity|reflexivity|].
    by apply (Hstr "dyn").
Defined.
